(** * OyAC: a mechanical binary counter simulated with pymunk

    Shallow embedding of [src/marble_counter.py] (the four-bit diagonal
    cascade) and [src/single_counter.py] (one mechanism), followed by the
    properties of the gate controller, the counter readout, the mechanism
    construction and the marble supply.

    Conventions.
    - Python [int] is [Z]; Python [float] is the kernel's binary64 [float],
      so [math.radians], [math.degrees] and the threshold tests are evaluated
      exactly as CPython evaluates them.
    - The pymunk [Space] is an explicit store.  A body is referred to by its
      handle; [mechanisms], [gate_body] and [marbles] hold handles into the
      same store that [space.step] updates, which is how the Python objects
      are shared.
    - pymunk and pygame are external.  [space.step] is modelled by an
      arbitrary per-frame solver result for the dynamic bodies; the moment of
      inertia helpers are kept symbolic. *)

From Stdlib Require Import ZArith QArith Floats String Lia Lqa.
From stdpp Require Import base list.

Set Warnings "-inexact-float".
Set Default Proof Using "Type".
Local Open Scope Z_scope.

(** ** Python numbers *)

Module Py.

(** [math.pi], the binary64 value nearest to pi. *)
Definition pi : float := 0x1.921fb54442d18p+1%float.

(** CPython: [degToRad = pi / 180.0], [radToDeg = 180.0 / pi]. *)
Definition degToRad : float := (pi / 180)%float.
Definition radToDeg : float := (180 / pi)%float.

(** [math.radians(x)] and [math.degrees(x)]. *)
Definition radians (x : float) : float := (x * degToRad)%float.
Definition degrees (x : float) : float := (x * radToDeg)%float.

(** Conversion of an [int] argument to a C double: the nearest double, ties
    to even, exact up to 2^53.  An [int] that rounds to no finite double
    makes Python raise [OverflowError]; the conversion here is infinite
    there, and statements about arbitrary integers ask that they fit. *)
Definition float_of_int (z : Z) : float :=
  SF2Prim (binary_normalize prec emax z 0 false).

(** The integers that convert: those below the midpoint between the largest
    double, 2^1024 - 2^971, and 2^1024. *)
Definition fits_double (z : Z) : bool := Z.abs z <? 2 ^ 1024 - 2 ^ 970.

(** [for i in range(n)] *)
Definition range (n : nat) : list Z := map Z.of_nat (seq 0 n).

End Py.

(** ** The part of pymunk the programs use *)

Module Pymunk.

Definition Vec2d : Type := float * float.

(** A tuple of ints handed to pymunk is stored as a pair of doubles. *)
Definition vec (p : Z * Z) : Vec2d :=
  (Py.float_of_int (fst p), Py.float_of_int (snd p)).

(** [pymunk.moment_for_*] are engine functions; their results are only
    stored in the body, so they are kept as terms. *)
Inductive Moment : Type :=
| moment_for_segment (mass : float) (a b : Z * Z) (radius : Z)
| moment_for_poly (mass : float) (vertices : list (Z * Z))
| moment_for_circle (mass : float) (inner_radius outer_radius : Z)
| moment_add (m1 m2 : Moment)
| moment_infinite.

Inductive BodyType : Type := DYNAMIC | KINEMATIC | STATIC.

(** What [body.position] reads.  A body is at a point the program or the
    solver gave it, or, after its angle was assigned, where the engine put
    it when it rebuilt the transform: the engine turns the body about its
    centre of gravity, so a body last placed at [from], with centre of
    gravity [cog] in body coordinates, reads as placed at [from] minus
    [cog] turned by the new angle.  The turn needs the cosine and sine of
    the C library, so that position is kept as a term of what it is
    computed from, like the moments. *)
Inductive Place : Type :=
| at_ (v : Vec2d)
| turned (from : Place) (cog : Vec2d) (a : float).

Coercion at_ : Vec2d >-> Place.

Record Body : Type := mkBody {
  body_type : BodyType;
  mass : float;
  moment : Moment;
  position : Place;
  angle : float;                 (* radians *)
  center_of_gravity : Vec2d      (* body-local coordinates *)
}.

(** [pymunk.Body(mass, moment, body_type)]: position (0,0), angle 0 and
    centre of gravity (0,0) until they are assigned.  The mass and the
    moment given are used for a dynamic body only: a kinematic or static
    body is made without them and has both infinite. *)
Definition new_Body (m : float) (i : Moment) (t : BodyType) : Body :=
  {| body_type := t;
     mass := match t with DYNAMIC => m | _ => infinity end;
     moment := match t with DYNAMIC => i | _ => moment_infinite end;
     position := at_ (0, 0)%float; angle := 0%float;
     center_of_gravity := (0, 0)%float |}.

(** [body.position = p].  The programs assign a position only to a body
    whose centre of gravity is at the body origin (the gate; a mechanism or
    a marble before anything else is set), where the body reads back at
    [p] exactly. *)
Definition with_position (p : Vec2d) (b : Body) : Body :=
  {| body_type := body_type b; mass := mass b; moment := moment b;
     position := at_ p; angle := angle b;
     center_of_gravity := center_of_gravity b |}.

Definition at_origin (c : Vec2d) : bool :=
  ((fst c =? 0) && (snd c =? 0))%float.

(** [body.angle = a]: the angle is set and the transform rebuilt about the
    centre of gravity; a body whose centre of gravity is at its origin
    stays where it reads. *)
Definition with_angle (a : float) (b : Body) : Body :=
  {| body_type := body_type b; mass := mass b; moment := moment b;
     position := if at_origin (center_of_gravity b) then position b
                 else turned (position b) (center_of_gravity b) a;
     angle := a;
     center_of_gravity := center_of_gravity b |}.

Definition with_center_of_gravity (c : Vec2d) (b : Body) : Body :=
  {| body_type := body_type b; mass := mass b; moment := moment b;
     position := position b; angle := angle b;
     center_of_gravity := c |}.

(** A handle: [space.static_body], or the n-th body added to the space. *)
Inductive BodyRef : Type :=
| static_body
| body_ref (n : nat).

Inductive Geometry : Type :=
| Segment (a b : Z * Z) (radius : Z)
| Poly (vertices : list (Z * Z))
| Circle (radius : Z).

Record Shape : Type := mkShape {
  shape_body : BodyRef;
  geometry : Geometry;
  elasticity : float;
  friction : float
}.

Inductive Constraint : Type :=
| PivotJoint (a b : BodyRef) (anchor : Vec2d)
| RotaryLimitJoint (a b : BodyRef) (min max : float).

Record Space : Type := mkSpace {
  gravity : Vec2d;
  bodies : list Body;
  shapes : list Shape;
  constraints : list Constraint
}.

(** [pymunk.Space()] *)
Definition new_Space : Space :=
  {| gravity := (0, 0)%float; bodies := []; shapes := []; constraints := [] |}.

(** Code that builds or changes the world threads the space. *)
Definition Sim (A : Type) : Type := Space -> A * Space.

Definition ret {A} (a : A) : Sim A := fun sp => (a, sp).

Definition bind {A B} (c : Sim A) (k : A -> Sim B) : Sim B :=
  fun sp => let (a, sp') := c sp in k a sp'.

Definition exec {A} (c : Sim A) (sp : Space) : Space := snd (c sp).

(** [space.gravity = g] *)
Definition set_gravity (g : Vec2d) : Sim unit :=
  fun sp => (tt, {| gravity := g; bodies := bodies sp;
                    shapes := shapes sp; constraints := constraints sp |}).

(** [space.add(body, shape, ...)]: the body gets the next handle, and the
    shapes made for it are attached to that handle. *)
Definition add_body (b : Body) (ss : list (BodyRef -> Shape)) : Sim BodyRef :=
  fun sp =>
    let r := body_ref (length (bodies sp)) in
    (r, {| gravity := gravity sp; bodies := bodies sp ++ [b];
           shapes := shapes sp ++ map (fun s => s r) ss;
           constraints := constraints sp |}).

(** [space.add(shape)] for a shape of the static body. *)
Definition add_shape (s : Shape) : Sim unit :=
  fun sp => (tt, {| gravity := gravity sp; bodies := bodies sp;
                    shapes := shapes sp ++ [s];
                    constraints := constraints sp |}).

(** [space.add(constraint)] *)
Definition add_constraint (c : Constraint) : Sim unit :=
  fun sp => (tt, {| gravity := gravity sp; bodies := bodies sp;
                    shapes := shapes sp;
                    constraints := constraints sp ++ [c] |}).

(** Assignment to an attribute of a body that is already in the space. *)
Definition update_body (r : BodyRef) (f : Body -> Body) (sp : Space) : Space :=
  match r with
  | static_body => sp
  | body_ref n =>
      {| gravity := gravity sp; bodies := alter f n (bodies sp);
         shapes := shapes sp; constraints := constraints sp |}
  end.

Definition set_position (r : BodyRef) (p : Vec2d) : Sim unit :=
  fun sp => (tt, update_body r (with_position p) sp).

Definition set_angle (r : BodyRef) (a : float) : Sim unit :=
  fun sp => (tt, update_body r (with_angle a) sp).

(** Reading an attribute through a handle.  The static body sits at the
    origin with angle 0; the programs never hold a handle that is not in
    the space, the default covers the type only. *)
Definition get_body (sp : Space) (r : BodyRef) : option Body :=
  match r with
  | static_body => None
  | body_ref n => bodies sp !! n
  end.

Definition body_angle (sp : Space) (r : BodyRef) : float :=
  match get_body sp r with Some b => angle b | None => 0%float end.

Definition body_position (sp : Space) (r : BodyRef) : Place :=
  match get_body sp r with Some b => position b | None => at_ (0, 0)%float end.

(** [space.step(dt)].  The solver is external: what the programs observe
    is a new position and angle for each dynamic body.  [pose n] is the
    solver's result for body [n]; kinematic bodies move by their velocity,
    which the programs never set, and static bodies never move.  A step
    adds or removes nothing: only a collision callback could, and the
    programs register none. *)
Definition Solver : Type := nat -> Vec2d * float.

Definition step_body (pose : Solver) (n : nat) (b : Body) : Body :=
  match body_type b with
  | DYNAMIC =>
      {| body_type := body_type b; mass := mass b; moment := moment b;
         position := at_ (fst (pose n)); angle := snd (pose n);
         center_of_gravity := center_of_gravity b |}
  | KINEMATIC | STATIC => b
  end.

Definition step (pose : Solver) (sp : Space) : Space :=
  {| gravity := gravity sp; bodies := imap (step_body pose) (bodies sp);
     shapes := shapes sp; constraints := constraints sp |}.

End Pymunk.

Import Pymunk.

Notation "'let*' x := c 'in' k" := (bind c (fun x => k))
  (at level 10, x name, c at level 100, k at level 200).
Notation "c ;; k" := (bind c (fun _ => k))
  (at level 100, k at level 200, right associativity).

(** ** Functions that are the same text in both programs

    [create_space], [create_gate], [create_counter_mechanism] and
    [spawn_marble] are identical in [marble_counter.py] and
    [single_counter.py]; so are [FPS] and [GRAVITY]. *)

Definition FPS : Z := 60.
Definition GRAVITY : float := 900%float.

Definition create_space : Space :=
  exec (set_gravity (0%float, GRAVITY)) new_Space.

Definition create_gate (position : Z * Z) : Sim BodyRef :=
  let mass := Py.float_of_int 1 in
  let moment := moment_for_segment mass (-18, 0) (18, 0) 5 in
  let body := new_Body mass moment KINEMATIC in
  let body := with_position (vec position) body in
  let gate_shape r :=
    {| shape_body := r; geometry := Segment (-18, 0) (18, 0) 5;
       elasticity := 0.5%float; friction := 0.5%float |} in
  add_body body [gate_shape].

(** The three polygons that enter the moment of inertia, the two fillets,
    the centre of gravity and the limit of [create_counter_mechanism]. *)
Definition h_bar_pts : list (Z * Z) := [(-50, -3); (50, -3); (50, 3); (-50, 3)].
Definition v_bar_pts : list (Z * Z) := [(-3, 0); (3, 0); (3, -65); (-3, -65)].
Definition tip_pts : list (Z * Z) := [(-15, -65); (15, -65); (0, -85)].
Definition slope_l_pts : list (Z * Z) := [(-3, -3); (-20, -3); (-3, -20)].
Definition slope_r_pts : list (Z * Z) := [(3, -3); (20, -3); (3, -20)].

Definition mechanism_cog : Z * Z := (0, -20).
Definition limit_min : float := (- Py.radians (Py.float_of_int 35))%float.
Definition limit_max : float := Py.radians (Py.float_of_int 35).

Definition create_counter_mechanism (position : Z * Z) : Sim BodyRef :=
  let mass := 2.0%float in
  let moment :=
    moment_add
      (moment_add (moment_for_poly mass h_bar_pts) (moment_for_poly mass v_bar_pts))
      (moment_for_poly mass tip_pts) in
  let body := new_Body mass moment DYNAMIC in
  let body := with_position (vec position) body in
  let body := with_center_of_gravity (vec mechanism_cog) body in
  let poly pts r :=
    {| shape_body := r; geometry := Poly pts;
       elasticity := 0.1%float; friction := 0.3%float |} in
  let* body := add_body body
                 [poly h_bar_pts; poly v_bar_pts; poly tip_pts;
                  poly slope_l_pts; poly slope_r_pts] in
  add_constraint (PivotJoint static_body body (vec position)) ;;
  add_constraint (RotaryLimitJoint static_body body limit_min limit_max) ;;
  ret body.

Definition marble_radius : Z := 12.

Definition spawn_marble (position : Z * Z) : Sim BodyRef :=
  let mass := 12.0%float in
  let radius := marble_radius in
  let moment := moment_for_circle mass 0 radius in
  let body := new_Body mass moment DYNAMIC in
  let body := with_position (vec position) body in
  let shape r :=
    {| shape_body := r; geometry := Circle radius;
       elasticity := 0.1%float; friction := 0.5%float |} in
  add_body body [shape].

(** ** The run loop

    [main] of both programs keeps the same locals and runs the same event
    handling and gate timer (marble_counter.py 154-168, single_counter.py
    120-134); they differ in the gate positions, in what holds the
    mechanisms ([mechanisms], a list, or [counter_body]) and in the readout
    drawn after [space.step]. *)

Inductive Key : Type :=
| K_SPACE
| K_other (code : Z).

Inductive Event : Type :=
| QUIT
| KEYDOWN (key : Key)
| OtherEvent (type : Z).

(** What one iteration of [while running] receives from outside: the events
    of [pygame.event.get()] and the solver's result for [space.step]. *)
Record FrameInput : Type := mkFrameInput {
  events : list Event;
  solver : Solver
}.

Section RunLoop.

(** [M]: the type of the local that holds the mechanisms. *)
Context {M : Type}.

Record Main : Type := mkMain {
  space : Space;
  gate_body : BodyRef;
  mechs : M;
  gate_timer : Z;
  total_marbles_launched : Z;
  marbles : list BodyRef;
  running : bool
}.

Variables gate_closed_pos gate_open_pos : Z * Z.

Definition with_space (sp : Space) (s : Main) : Main :=
  {| space := sp; gate_body := gate_body s; mechs := mechs s;
     gate_timer := gate_timer s;
     total_marbles_launched := total_marbles_launched s;
     marbles := marbles s; running := running s |}.

(** [gate_body.position = gate_open_pos; gate_timer = 15;
    total_marbles_launched += 1] *)
Definition launch (s : Main) : Main :=
  {| space := exec (set_position (gate_body s) (vec gate_open_pos)) (space s);
     gate_body := gate_body s; mechs := mechs s;
     gate_timer := 15;
     total_marbles_launched := total_marbles_launched s + 1;
     marbles := marbles s; running := running s |}.

(** [running = False] *)
Definition stop (s : Main) : Main :=
  {| space := space s; gate_body := gate_body s; mechs := mechs s;
     gate_timer := gate_timer s;
     total_marbles_launched := total_marbles_launched s;
     marbles := marbles s; running := false |}.

(** The body of [for event in pygame.event.get()]. *)
Definition handle_event (s : Main) (event : Event) : Main :=
  let s := match event with QUIT => stop s | _ => s end in
  match event with
  | KEYDOWN K_SPACE => launch s
  | _ => s
  end.

Definition handle_events (evs : list Event) (s : Main) : Main :=
  fold_left handle_event evs s.

(** [if gate_timer > 0: gate_timer -= 1;
       if gate_timer == 0: gate_body.position = gate_closed_pos] *)
Definition gate_tick (s : Main) : Main :=
  if 0 <? gate_timer s then
    let t := gate_timer s - 1 in
    {| space := if t =? 0
                then exec (set_position (gate_body s) (vec gate_closed_pos)) (space s)
                else space s;
       gate_body := gate_body s; mechs := mechs s;
       gate_timer := t;
       total_marbles_launched := total_marbles_launched s;
       marbles := marbles s; running := running s |}
  else s.

(** [space.step(1.0 / FPS)] *)
Definition physics (pose : Solver) (s : Main) : Main :=
  with_space (step pose (space s)) s.

(** The loop body up to the readout. *)
Definition advance (inp : FrameInput) (s : Main) : Main :=
  physics (solver inp) (gate_tick (handle_events (events inp) s)).

(** [while running: ...] over the inputs of successive frames.  The test
    of [running] is made at the top of the loop only, so the frame that
    receives [QUIT] is still completed. *)
Fixpoint run (inputs : list FrameInput) (s : Main) : Main :=
  match inputs with
  | [] => s
  | inp :: rest => if running s then run rest (advance inp s) else s
  end.

(** The statements of the loop body that change the locals, to speak of
    every point of the loop and not only of its top: any sequence of
    them covers every interleaving the loop can produce. *)
Inductive Stmt : Type :=
| on_event (e : Event)
| on_tick
| on_step (pose : Solver).

Definition exec_stmt (s : Main) (st : Stmt) : Main :=
  match st with
  | on_event e => handle_event s e
  | on_tick => gate_tick s
  | on_step pose => physics pose s
  end.

Definition exec_stmts (sts : list Stmt) (s : Main) : Main :=
  fold_left exec_stmt sts s.

(** The statements one iteration executes, in order. *)
Definition frame_stmts (inp : FrameInput) : list Stmt :=
  map on_event (events inp) ++ [on_tick; on_step (solver inp)].

End RunLoop.

Arguments Main : clear implicits.

(** [for x in xs: ys.append(f(x))] with [f] acting on the space. *)
Fixpoint for_each {A B} (f : A -> Sim B) (xs : list A) : Sim (list B) :=
  match xs with
  | [] => ret []
  | x :: xs' => let* y := f x in let* ys := for_each f xs' in ret (y :: ys)
  end.

(** [enumerate(xs)] *)
Definition enumerate {A} (xs : list A) : list (Z * A) :=
  imap (fun i x => (Z.of_nat i, x)) xs.

Definition static_segment (a b : Z * Z) (radius : Z) (e f : float) : Shape :=
  {| shape_body := static_body; geometry := Segment a b radius;
     elasticity := e; friction := f |}.

(** ** marble_counter.py *)

Module MarbleCounter.

Definition WIDTH : Z := 1000.
Definition HEIGHT : Z := 1000.

Definition tube_width : Z := 32.
Definition tube_height : Z := 100.

Definition create_boundaries : Sim Z :=
  add_shape (static_segment (0, HEIGHT - 10) (WIDTH, HEIGHT - 10) 10
               0.5%float 0.5%float) ;;
  let tube_x := WIDTH - 200 in
  let wall_l := static_segment (tube_x - tube_width / 2, 0)
                  (tube_x - tube_width / 2, tube_height) 4 0.5%float 0.2%float in
  let wall_r := static_segment (tube_x + tube_width / 2, 0)
                  (tube_x + tube_width / 2, tube_height) 4 0.5%float 0.2%float in
  add_shape wall_l ;;
  add_shape wall_r ;;
  ret tube_x.

Definition create_catch_funnel (x y : Z) : Sim unit :=
  let w := 195 in
  let h := 50 in
  let gap := 40 in
  let l_slope := static_segment (x - w / 2, y) (x - gap / 2, y + h) 4
                   0.2%float 0.1%float in
  let r_slope := static_segment (x + w / 2 + 100, y - 60) (x + gap / 2, y + h) 4
                   0.2%float 0.1%float in
  add_shape l_slope ;;
  add_shape r_slope.

Definition tube_x : Z := WIDTH - 200.
Definition gate_closed_pos : Z * Z := (tube_x, 103).
Definition gate_open_pos : Z * Z := (tube_x + 40, 103).

Definition bits_pos : list (Z * Z) :=
  [ (WIDTH - 180, 220);   (* Bit 0 *)
    (WIDTH - 430, 450);   (* Bit 1 *)
    (WIDTH - 680, 680);   (* Bit 2 *)
    (WIDTH - 930, 910) ]. (* Bit 3 *)

(** The body of [for i, pos in enumerate(bits_pos)]. *)
Definition place_mechanism (ip : Z * (Z * Z)) : Sim BodyRef :=
  let (i, pos) := ip in
  let* body := create_counter_mechanism pos in
  set_angle body (- Py.radians (Py.float_of_int 35))%float ;;
  (if 0 <? i then create_catch_funnel (fst pos) (snd pos - 140) else ret tt) ;;
  ret body.

(** The spawn position of the i-th marble of the supply. *)
Definition seed_position (i : Z) : Z * Z := (tube_x, 80 - i * 26).

(** [main] up to [running = True]. *)
Definition setup : Sim (Main (list BodyRef)) :=
  let* tx := create_boundaries in
  let* gate_body := create_gate (tx, 103) in
  let* mechanisms := for_each place_mechanism (enumerate bits_pos) in
  let* marbles := for_each (fun i => spawn_marble (tx, 80 - i * 26)) (Py.range 10) in
  fun sp =>
    ({| space := sp; gate_body := gate_body; mechs := mechanisms;
        gate_timer := 0; total_marbles_launched := 0;
        marbles := marbles; running := true |}, sp).

Definition init : Main (list BodyRef) := fst (setup create_space).

(** What a frame shows: the labels [Bit i: val], [Contador: binary_val]
    and [Canicas lanzadas: total_marbles_launched]. *)
Record Hud : Type := mkHud {
  bit_labels : list (Z * Z);
  binary_val : Z;
  text_count : Z
}.

(** [val = 1 if angle > 5 else 0], [angle] in degrees. *)
Definition bit_of_angle (angle : float) : Z :=
  if (5 <? angle)%float then 1 else 0.

(** [for i, m in enumerate(mechanisms)] with its two accumulators; [i] is
    the index of the head of [ms]. *)
Fixpoint readout_loop (sp : Space) (i : Z) (ms : list BodyRef)
    (binary_val : Z) (labels : list (Z * Z)) : Z * list (Z * Z) :=
  match ms with
  | [] => (binary_val, labels)
  | m :: ms' =>
      let angle := Py.degrees (body_angle sp m) in
      let val := bit_of_angle angle in
      readout_loop sp (i + 1) ms' (binary_val + val * 2 ^ i) (labels ++ [(i, val)])
  end.

(** Lines 174-184: [binary_val = 0], the loop, the three texts. *)
Definition readout (s : Main (list BodyRef)) : Hud :=
  let (binary_val, labels) := readout_loop (space s) 0 (mechs s) 0 [] in
  {| bit_labels := labels; binary_val := binary_val;
     text_count := total_marbles_launched s |}.

Definition handle_event := @handle_event (list BodyRef) gate_open_pos.
Definition gate_tick := @gate_tick (list BodyRef) gate_closed_pos.
Definition advance := @advance (list BodyRef) gate_closed_pos gate_open_pos.
Definition run := @run (list BodyRef) gate_closed_pos gate_open_pos.

(** One iteration of the loop: the new locals and what is drawn. *)
Definition frame (inp : FrameInput) (s : Main (list BodyRef))
    : Main (list BodyRef) * Hud :=
  let s' := advance inp s in (s', readout s').

(** The successive displays of a run. *)
Fixpoint displays (inputs : list FrameInput) (s : Main (list BodyRef)) : list Hud :=
  match inputs with
  | [] => []
  | inp :: rest =>
      if running s then
        let (s', hud) := frame inp s in hud :: displays rest s'
      else []
  end.

End MarbleCounter.

(** ** single_counter.py *)

Module SingleCounter.

Definition WIDTH : Z := 800.
Definition HEIGHT : Z := 600.

Definition tube_width : Z := 32.
Definition tube_height : Z := 150.

Definition create_boundaries : Sim unit :=
  add_shape (static_segment (0, HEIGHT - 10) (WIDTH, HEIGHT - 10) 10
               0.5%float 0.5%float) ;;
  let wall_l := static_segment (WIDTH / 2 - tube_width / 2, 0)
                  (WIDTH / 2 - tube_width / 2, tube_height) 4 0.5%float 0.2%float in
  let wall_r := static_segment (WIDTH / 2 + tube_width / 2, 0)
                  (WIDTH / 2 + tube_width / 2, tube_height) 4 0.5%float 0.2%float in
  add_shape wall_l ;;
  add_shape wall_r.

Definition gate_closed_pos : Z * Z := (WIDTH / 2, 110).
Definition gate_open_pos : Z * Z := (WIDTH / 2 + 40, 110).
Definition m_pos : Z * Z := (WIDTH / 2, HEIGHT / 2 + 50).

(** [main] up to [running = True]. *)
Definition setup : Sim (Main BodyRef) :=
  create_boundaries ;;
  let* gate_body := create_gate gate_closed_pos in
  let* counter_body := create_counter_mechanism m_pos in
  set_angle counter_body (- Py.radians (Py.float_of_int 35))%float ;;
  let* marbles := for_each (fun i => spawn_marble (WIDTH / 2, 80 - i * 26)) (Py.range 5) in
  fun sp =>
    ({| space := sp; gate_body := gate_body; mechs := counter_body;
        gate_timer := 0; total_marbles_launched := 0;
        marbles := marbles; running := true |}, sp).

Definition init : Main BodyRef := fst (setup create_space).

(** [Estado: parity] and [Canicas: total_marbles_launched]. *)
Record Hud : Type := mkHud {
  text_parity : string;
  text_count : Z
}.

(** ["PAR" if angle > 5 else "IMPAR" if angle < -5 else "..."] *)
Definition parity_of_angle (angle : float) : string :=
  if (5 <? angle)%float then "PAR"%string
  else if (angle <? -5)%float then "IMPAR"%string
  else "..."%string.

Definition readout (s : Main BodyRef) : Hud :=
  let angle := Py.degrees (body_angle (space s) (mechs s)) in
  {| text_parity := parity_of_angle angle;
     text_count := total_marbles_launched s |}.

Definition handle_event := @handle_event BodyRef gate_open_pos.
Definition gate_tick := @gate_tick BodyRef gate_closed_pos.
Definition advance := @advance BodyRef gate_closed_pos gate_open_pos.
Definition run := @run BodyRef gate_closed_pos gate_open_pos.

Definition frame (inp : FrameInput) (s : Main BodyRef) : Main BodyRef * Hud :=
  let s' := advance inp s in (s', readout s').

End SingleCounter.

(** * The vocabulary of the properties

    Definitions the statements below are written with.  None of them is
    part of the programs. *)

(** ** The gate and the statements of the loop *)

Section Vocabulary.

Context {M : Type}.
Variables closed open : Z * Z.

Local Abbreviation handle_event := (@handle_event M open).
Local Abbreviation gate_tick := (@gate_tick M closed).
Local Abbreviation exec_stmts := (@exec_stmts M closed open).
Local Abbreviation advance := (@advance M closed open).

(** Where the gate is. *)
Definition gate_position (s : Main M) : Place :=
  body_position (space s) (gate_body s).

(** The gate handle points to a kinematic body of the space, the timer is
    in range, and the gate is at [open] exactly while the timer runs. *)
Definition gate_inv (s : Main M) : Prop :=
  0 <= gate_timer s <= 15 /\
  exists b, get_body (space s) (gate_body s) = Some b /\
            body_type b = KINEMATIC /\
            position b = vec (if 0 <? gate_timer s then open else closed).

(** Counting the launches and the timer steps of a statement sequence. *)
Definition is_launch (e : Event) : bool :=
  match e with KEYDOWN K_SPACE => true | _ => false end.

Definition launches (sts : list Stmt) : nat :=
  length (List.filter (fun st => match st with on_event e => is_launch e | _ => false end) sts).

Definition ticks (sts : list Stmt) : nat :=
  length (List.filter (fun st => match st with on_tick => true | _ => false end) sts).

(** What the gate controller does at a state [s] of the loop, and along
    a launch-free continuation [quiet] of a launch made at [s]. *)
Definition gate_controller_spec (s : Main M) (quiet : list Stmt) : Prop :=
  let s1 := handle_event s (KEYDOWN K_SPACE) in
  let s2 := handle_event s1 (KEYDOWN K_SPACE) in
  let s3 := exec_stmts quiet s1 in
  (* the gate is in one of two states, told apart by the timer *)
  gate_position s = vec (if 0 <? gate_timer s then open else closed) /\
  (* a launch, from CLOSED or from OPEN *)
  (gate_position s1 = vec open /\ gate_timer s1 = 15) /\
  (* a second launch while OPEN: the same state again *)
  (gate_position s2 = vec open /\ gate_timer s2 = 15) /\
  (* one simulation step *)
  gate_timer (gate_tick s)
    = (if 0 <? gate_timer s then gate_timer s - 1 else gate_timer s) /\
  gate_position (gate_tick s)
    = (if gate_timer s =? 1 then vec closed else gate_position s) /\
  (* the countdown after the launch *)
  gate_timer s3 = 15 - Z.of_nat (ticks quiet) /\
  gate_position s3 = vec (if (ticks quiet <? 15)%nat then open else closed).

(** The statements a run executes, frame after frame, until [running]
    is found false at the top of the loop. *)
Fixpoint run_stmts (inputs : list FrameInput) (s : Main M) : list Stmt :=
  match inputs with
  | [] => []
  | inp :: rest =>
      if running s
      then frame_stmts inp ++ run_stmts rest (advance inp s)
      else []
  end.

End Vocabulary.

(** States of the two programs after any sequence of loop statements. *)
Definition marble_after (ops : list Stmt) : Main (list BodyRef) :=
  exec_stmts MarbleCounter.gate_closed_pos MarbleCounter.gate_open_pos ops
    MarbleCounter.init.

Definition single_after (ops : list Stmt) : Main BodyRef :=
  exec_stmts SingleCounter.gate_closed_pos SingleCounter.gate_open_pos ops
    SingleCounter.init.

(** Fifteen frames without input; what the solver does to the dynamic
    bodies is immaterial to the gate. *)
Definition idle_pose : Solver := fun _ => ((0, 0)%float, 0%float).
Definition idle_frame : FrameInput := {| events := []; solver := idle_pose |}.
Definition fifteen_idle_frames : list Stmt :=
  concat (replicate 15 (frame_stmts idle_frame)).

(** ** The readout *)

(** The sum of the specification, [b0*2^0 + b1*2^1 + ... + b(N-1)*2^(N-1)]:
    one term per bit, weighted by its index, index 0 least significant. *)
Definition positional_sum (bits : list Z) : Z :=
  foldr Z.add 0 (imap (fun i b => b * 2 ^ Z.of_nat i) bits).

(** The angles of the mechanisms as [space.step] left them, in radians,
    and the bits the readout makes of them. *)
Definition mech_angles (s : Main (list BodyRef)) : list float :=
  map (body_angle (space s)) (mechs s).

Definition decode (angles : list float) : list Z :=
  map (fun a => MarbleCounter.bit_of_angle (Py.degrees a)) angles.

Definition classified_bits (s : Main (list BodyRef)) : list Z :=
  decode (mech_angles s).

(** The sum of the terms from index [i] on. *)
Definition weighted_from (i : Z) (bits : list Z) : Z :=
  foldr Z.add 0 (imap (fun k b => b * 2 ^ (i + Z.of_nat k)) bits).

(** A frame in which the solver leaves the second mechanism (Bit 1, the body
    with handle 2) at the lower limit and every other body at the upper. *)
Definition pose_1011 : Solver :=
  fun n => ((0, 0)%float, if (n =? 2)%nat then limit_min else limit_max).

Definition frame_1011 : FrameInput := {| events := []; solver := pose_1011 |}.

(** Two runs of two frames.  In the first frame the solver leaves every
    mechanism at the upper limit (run A) or at the lower limit (run B); in
    the second frame it leaves every mechanism level, at angle 0. *)
Definition pose_all (a : float) : Solver := fun _ => ((0, 0)%float, a).

Definition run_A : list FrameInput :=
  [ {| events := []; solver := pose_all limit_max |};
    {| events := []; solver := pose_all 0%float |} ].

Definition run_B : list FrameInput :=
  [ {| events := []; solver := pose_all limit_min |};
    {| events := []; solver := pose_all 0%float |} ].

(** ** Marbles and the tube *)

(** A marble is a body of the space that carries a circle; nothing else in
    the programs makes a circle. *)
Definition is_marble (sp : Space) (n : nat) : bool :=
  existsb (fun sh => match shape_body sh, geometry sh with
                     | body_ref k, Circle _ => (k =? n)%nat
                     | _, _ => false
                     end) (shapes sp).

Definition marble_count (sp : Space) : nat :=
  length (List.filter (is_marble sp) (seq 0 (length (bodies sp)))).

(** The inner faces of the tube walls: the walls are segments of radius 4
    at [tube_x - 16] and [tube_x + 16]. *)
Definition tube_inner_left : Z := MarbleCounter.tube_x - MarbleCounter.tube_width / 2 + 4.
Definition tube_inner_right : Z := MarbleCounter.tube_x + MarbleCounter.tube_width / 2 - 4.

(** The marble seeded at [p] is in the column of the tube (between the inner
    faces of the walls) and clear above the gate bar, a segment of radius 5
    at the height of [gate_closed_pos]. *)
Definition in_tube_column_above_gate (p : Z * Z) : bool :=
  (tube_inner_left <=? fst p - marble_radius)
  && (fst p + marble_radius <=? tube_inner_right)
  && (snd p + marble_radius <? snd MarbleCounter.gate_closed_pos - 5).

(** The centre of the marble seeded at [p] is between the two ends of the
    tube walls. *)
Definition between_wall_ends (p : Z * Z) : bool :=
  (0 <=? snd p) && (snd p <=? MarbleCounter.tube_height).

(** ** Joints and limits *)

Definition same_body (r1 r2 : BodyRef) : bool :=
  match r1, r2 with
  | static_body, static_body => true
  | body_ref n, body_ref k => (n =? k)%nat
  | _, _ => false
  end.

(** The two bodies a constraint joins. *)
Definition joint_bodies (c : Constraint) : BodyRef * BodyRef :=
  match c with
  | PivotJoint a b _ => (a, b)
  | RotaryLimitJoint a b _ _ => (a, b)
  end.

(** All the constraints attached to a body. *)
Definition joints_of (cs : list Constraint) (r : BodyRef) : list Constraint :=
  List.filter (fun c => same_body (fst (joint_bodies c)) r
                        || same_body (snd (joint_bodies c)) r) cs.

(** Every constraint of the space joins bodies of the space. *)
Definition known (sp : Space) (r : BodyRef) : bool :=
  match r with
  | static_body => true
  | body_ref n => (n <? length (bodies sp))%nat
  end.

Definition constraints_closed (sp : Space) : bool :=
  forallb (fun c => known sp (fst (joint_bodies c)) && known sp (snd (joint_bodies c)))
    (constraints sp).

(** [lo <= a <= hi] on doubles. *)
Definition within (lo hi a : float) : bool := ((lo <=? a) && (a <=? hi))%float.

(** What a rotary limit joint between the static body (angle 0) and a body
    asks of that body's angle. *)
Definition limit_asks (c : Constraint) (angle_of : nat -> float) : bool :=
  match c with
  | RotaryLimitJoint static_body (body_ref n) lo hi => within lo hi (angle_of n)
  | _ => true
  end.

(** The angles of the space satisfy its limit joints. *)
Definition limits_hold (sp : Space) : bool :=
  forallb (fun c => limit_asks c (fun n => body_angle sp (body_ref n))) (constraints sp).

(** A mechanism as [create_counter_mechanism] leaves it: one pivot joint to
    the static body, one rotary limit joint to the static body with the
    bounds of the source, nothing else. *)
Definition mechanism_joined (sp : Space) (m : BodyRef) : Prop :=
  exists anchor,
    joints_of (constraints sp) m
    = [PivotJoint static_body m anchor;
       RotaryLimitJoint static_body m limit_min limit_max].

(** A position whose two coordinates convert to doubles. *)
Definition point_fits (p : Z * Z) : bool :=
  Py.fits_double (fst p) && Py.fits_double (snd p).

(** A frame in which the solver leaves every dynamic body at 1 radian, some
    57 degrees: the limit joints are constraints the solver works on, and
    what it returns is what the bodies get. *)
Definition overshoot_frame : FrameInput :=
  {| events := []; solver := pose_all 1%float |}.

(** Two frames, a launch in the second, the solver leaving the mechanisms at
    their limits. *)
Definition two_frames_1011 : list Stmt :=
  frame_stmts frame_1011
  ++ frame_stmts {| events := [KEYDOWN K_SPACE]; solver := pose_1011 |}.

(** ** Geometry of the mechanism *)

(** The polygons of a mechanism, in the order they are added. *)
Definition mechanism_polys : list (list (Z * Z)) :=
  [h_bar_pts; v_bar_pts; tip_pts; slope_l_pts; slope_r_pts].

(** The far end of the tail: the apex of the wedge. *)
Definition tail_tip : Z * Z := (0, -85).

(** A body-local offset [c] from the pivot lies below the pivot when it
    points the way gravity [g] pulls, above when it points against it. *)
Definition lies_below (g c : Vec2d) : bool :=
  (0 <? fst g * fst c + snd g * snd c)%float.

Definition lies_above (g c : Vec2d) : bool :=
  (fst g * fst c + snd g * snd c <? 0)%float.

(** The y component, in world coordinates, of the body-local offset [p]
    when the body is turned by the angle of cosine [c] and sine [s]. *)
Definition rotated_y (c s : Q) (p : Z * Z) : Q :=
  (inject_Z (fst p) * s + inject_Z (snd p) * c)%Q.

(** [c] is on the straight line from the pivot (the body origin) to [tip],
    strictly between the two. *)
Definition between_pivot_and (tip c : Z * Z) : bool :=
  (fst c * snd tip - fst tip * snd c =? 0)
  && (0 <? fst c * fst tip + snd c * snd tip)
  && (fst c * fst tip + snd c * snd tip <? fst tip * fst tip + snd tip * snd tip).

(** The geometric centroid of a compound of polygons, by the surveyor's
    formula: each polygon's area and first moments from its edges, the
    compound's centroid as the area-weighted mean. *)
Fixpoint edges_from (first : Z * Z) (pts : list (Z * Z)) : list ((Z * Z) * (Z * Z)) :=
  match pts with
  | [] => []
  | p :: rest =>
      match rest with
      | [] => [(p, first)]
      | q :: _ => (p, q) :: edges_from first rest
      end
  end.

Definition edges (pts : list (Z * Z)) : list ((Z * Z) * (Z * Z)) :=
  match pts with
  | [] => []
  | p :: _ => edges_from p pts
  end.

Definition cross (e : (Z * Z) * (Z * Z)) : Z :=
  fst (fst e) * snd (snd e) - fst (snd e) * snd (fst e).

Definition sumZ (l : list Z) : Z := foldr Z.add 0 l.

(** Twice the signed area, and six times the signed first moments. *)
Definition twice_area (pts : list (Z * Z)) : Z := sumZ (map cross (edges pts)).

Definition moment_x (pts : list (Z * Z)) : Z :=
  sumZ (map (fun e => (fst (fst e) + fst (snd e)) * cross e) (edges pts)).

Definition moment_y (pts : list (Z * Z)) : Z :=
  sumZ (map (fun e => (snd (fst e) + snd (snd e)) * cross e) (edges pts)).

Definition compound_centroid (polys : list (list (Z * Z))) : Q * Q :=
  let a := sumZ (map (fun p => Z.abs (twice_area p)) polys) in
  let mx := sumZ (map (fun p => Z.sgn (twice_area p) * moment_x p) polys) in
  let my := sumZ (map (fun p => Z.sgn (twice_area p) * moment_y p) polys) in
  (Qred (inject_Z mx / inject_Z (3 * a)), Qred (inject_Z my / inject_Z (3 * a))).

(** ** Further vocabulary: the end of a run *)

Definition is_quit (e : Event) : bool :=
  match e with QUIT => true | _ => false end.

(** A [QUIT] among the events of a statement sequence. *)
Definition quits (sts : list Stmt) : bool :=
  existsb (fun st => match st with on_event e => is_quit e | _ => false end) sts.

(** The frames a run plays: all of them up to and including the first that
    receives a [QUIT]. *)
Fixpoint frames_played (inputs : list FrameInput) : nat :=
  match inputs with
  | [] => 0
  | inp :: rest =>
      if existsb is_quit (events inp) then 1 else S (frames_played rest)
  end.

(** A frame that receives one SPACE press, and thirteen frames after it
    that receive nothing. *)
Definition launch_frame : FrameInput :=
  {| events := [KEYDOWN K_SPACE]; solver := idle_pose |}.

Definition thirteen_idle_frames : list FrameInput := replicate 13 idle_frame.

(** ** Further vocabulary: what never changes in a body *)

Definition body_fixed (b : Body) : BodyType * float * Moment * Vec2d :=
  (body_type b, mass b, moment b, center_of_gravity b).

(** ** Further vocabulary: building the world *)

(** [sp'] holds everything [sp] holds, unchanged and in the same places,
    and possibly more after it. *)
Definition extends (sp sp' : Space) : Prop :=
  gravity sp' = gravity sp
  /\ bodies sp `prefix_of` bodies sp'
  /\ shapes sp `prefix_of` shapes sp'
  /\ constraints sp `prefix_of` constraints sp'.

(** The type and the position of the body behind a handle. *)
Definition body_at (sp : Space) (r : BodyRef) : option (BodyType * Place) :=
  (fun b => (body_type b, position b)) <$> get_body sp r.



(** ** Further vocabulary: the gate bar and the tube *)

(** Both programs add the floor, the left wall and the right wall of the
    tube first, and the bar of the gate next.  The clear width of the tube
    lies between the inner faces of the walls; the reach of the bar is
    counted from the position of the gate body. *)
Definition segment_x (g : Geometry) : Z * Z * Z :=
  match g with
  | Segment a b r => (fst a, fst b, r)
  | _ => (0, 0, 0)
  end.

Definition tube_clear (sp : Space) : Z * Z :=
  match shapes sp with
  | _ :: wall_l :: wall_r :: _ =>
      let '(xl, _, rl) := segment_x (geometry wall_l) in
      let '(xr, _, rr) := segment_x (geometry wall_r) in
      (xl + rl, xr - rr)
  | _ => (0, 0)
  end.

Definition bar_reach (sp : Space) : Z * Z :=
  match shapes sp with
  | _ :: _ :: _ :: bar :: _ =>
      let '(xa, xb, r) := segment_x (geometry bar) in (xa - r, xb + r)
  | _ => (0, 0)
  end.

(** With the gate body at [p]: the bar spans the whole clear width of the
    tube; the bar lies entirely beside it. *)
Definition bar_covers_tube (sp : Space) (p : Z * Z) : bool :=
  (fst p + fst (bar_reach sp) <=? fst (tube_clear sp))
  && (snd (tube_clear sp) <=? fst p + snd (bar_reach sp)).

Definition bar_beside_tube (sp : Space) (p : Z * Z) : bool :=
  (snd (tube_clear sp) <=? fst p + fst (bar_reach sp))
  || (fst p + snd (bar_reach sp) <=? fst (tube_clear sp)).

(** Where the timer says the gate is. *)
Definition gate_place {M} (closed open : Z * Z) (s : Main M) : Z * Z :=
  if 0 <? gate_timer s then open else closed.

(** ** Further vocabulary: the handles of the locals *)

(** The type of the body behind a handle, if there is one. *)
Definition type_at (sp : Space) (r : BodyRef) : option BodyType :=
  body_type <$> get_body sp r.

(** A run of three frames, a launch in the second. *)
Definition three_frames : list FrameInput := [idle_frame; launch_frame; idle_frame].

(** * Properties *)

(** ** Floating-point thresholds *)

(** No angle is both above +5 and below -5, NaN and infinities included. *)
Lemma thresholds_exclusive (a : float) :
  ((5 <? a) && (a <? -5))%float = false.
Proof.
  rewrite !ltb_spec.
  change (Prim2SF 5) with (S754_finite false 5629499534213120 (-50)).
  change (Prim2SF (-5)) with (S754_finite true 5629499534213120 (-50)).
  destruct (Prim2SF a) as [sg|sg| |sg m e]; try destruct sg; cbn;
    try reflexivity; apply andb_false_r.
Qed.

Lemma below_minus5_not_above5 (a : float) :
  (a <? -5)%float = true -> (5 <? a)%float = false.
Proof.
  intros Hlo. pose proof (thresholds_exclusive a) as Hex.
  rewrite Hlo, andb_true_r in Hex. exact Hex.
Qed.

(** [math.degrees(math.radians(35))] is 35.0 exactly, and so for the
    negated bound. *)
Lemma degrees_limit_max : Py.degrees limit_max = 35%float.
Proof. vm_compute. reflexivity. Qed.

Lemma degrees_limit_min : Py.degrees limit_min = (-35)%float.
Proof. vm_compute. reflexivity. Qed.

(** ** The store *)

Lemma update_body_shapes r f sp : shapes (update_body r f sp) = shapes sp.
Proof. destruct r; reflexivity. Qed.

Lemma update_body_constraints r f sp :
  constraints (update_body r f sp) = constraints sp.
Proof. destruct r; reflexivity. Qed.

Lemma update_body_length r f sp :
  length (bodies (update_body r f sp)) = length (bodies sp).
Proof. destruct r; simpl; [reflexivity | apply length_alter]. Qed.

Lemma get_body_update_eq r f sp :
  get_body (update_body r f sp) r = f <$> get_body sp r.
Proof. destruct r; simpl; [reflexivity | apply list_lookup_alter_eq]. Qed.

Lemma get_body_step pose sp r :
  get_body (step pose sp) r
  = match r with
    | static_body => None
    | body_ref n => step_body pose n <$> get_body sp r
    end.
Proof. destruct r; simpl; [reflexivity | apply list_lookup_imap]. Qed.

Lemma step_body_kinematic pose n b :
  body_type b = KINEMATIC -> step_body pose n b = b.
Proof. unfold step_body. intros ->. reflexivity. Qed.

(** ** The gate controller, for either program *)

Section GateFacts.

Context {M : Type}.
Variables closed open : Z * Z.

Local Abbreviation handle_event := (@handle_event M open).
Local Abbreviation gate_tick := (@gate_tick M closed).
Local Abbreviation launch := (@launch M open).
Local Abbreviation exec_stmt := (@exec_stmt M closed open).
Local Abbreviation exec_stmts := (@exec_stmts M closed open).
Local Abbreviation gate_inv := (@gate_inv M closed open).
Local Abbreviation gate_controller_spec := (@gate_controller_spec M closed open).

Lemma gate_inv_position s :
  gate_inv s ->
  gate_position s = vec (if 0 <? gate_timer s then open else closed).
Proof.
  intros (_ & b & Hb & _ & Hp). unfold gate_position, body_position.
  rewrite Hb. exact Hp.
Qed.

Lemma gate_inv_launch s : gate_inv s -> gate_inv (launch s).
Proof.
  intros (_ & b & Hb & Hk & _). split; [simpl; lia|].
  exists (with_position (vec open) b). simpl. unfold exec. simpl.
  rewrite get_body_update_eq, Hb. auto.
Qed.

Lemma gate_inv_event s e : gate_inv s -> gate_inv (handle_event s e).
Proof.
  intros H. destruct e as [|[|c]|t]; simpl; auto using gate_inv_launch.
Qed.

Lemma gate_inv_tick s : gate_inv s -> gate_inv (gate_tick s).
Proof.
  intros (Ht & b & Hb & Hk & Hp). unfold gate_tick.
  destruct (0 <? gate_timer s) eqn:Hpos; [|split; [exact Ht|]; exists b; rewrite Hpos; auto].
  apply Z.ltb_lt in Hpos. split; [simpl; lia|]. simpl.
  destruct (gate_timer s - 1 =? 0) eqn:Hz.
  - apply Z.eqb_eq in Hz. rewrite Hz. simpl.
    exists (with_position (vec closed) b). unfold exec. simpl.
    rewrite get_body_update_eq, Hb. auto.
  - apply Z.eqb_neq in Hz.
    assert ((0 <? gate_timer s - 1) = true) as -> by (apply Z.ltb_lt; lia).
    exists b. auto.
Qed.

Lemma gate_inv_physics pose s : gate_inv s -> gate_inv (physics pose s).
Proof.
  intros (Ht & b & Hb & Hk & Hp). split; [exact Ht|]. exists b. simpl.
  rewrite get_body_step. destruct (gate_body s) as [|n]; [discriminate|].
  rewrite Hb. simpl. rewrite step_body_kinematic by exact Hk. auto.
Qed.

Lemma gate_inv_stmt s st : gate_inv s -> gate_inv (exec_stmt s st).
Proof.
  destruct st; simpl; auto using gate_inv_event, gate_inv_tick, gate_inv_physics.
Qed.

Lemma gate_inv_stmts sts s : gate_inv s -> gate_inv (exec_stmts sts s).
Proof.
  revert s. induction sts as [|st sts IH]; intros s H; simpl; [exact H|].
  apply IH, gate_inv_stmt, H.
Qed.

Lemma handle_event_quiet s e :
  is_launch e = false -> gate_timer (handle_event s e) = gate_timer s.
Proof. destruct e as [|[|c]|t]; simpl; intros H; congruence. Qed.

Lemma gate_tick_timer s :
  gate_timer (gate_tick s)
  = if 0 <? gate_timer s then gate_timer s - 1 else gate_timer s.
Proof. unfold gate_tick. destruct (0 <? gate_timer s); reflexivity. Qed.

(** Without a launch the timer only counts down, and stops at zero. *)
Lemma timer_countdown sts s :
  launches sts = 0%nat -> 0 <= gate_timer s ->
  gate_timer (exec_stmts sts s)
  = Z.max 0 (gate_timer s - Z.of_nat (ticks sts)).
Proof.
  revert s. induction sts as [|st sts IH]; intros s Hq Ht.
  - unfold ticks. simpl. lia.
  - destruct st as [e| |pose]; unfold launches, ticks in *; simpl in *.
    + destruct (is_launch e) eqn:He; [discriminate|].
      rewrite IH by (rewrite ?handle_event_quiet; auto).
      rewrite handle_event_quiet by exact He. reflexivity.
    + rewrite IH; rewrite ?gate_tick_timer; auto.
      all: destruct (0 <? gate_timer s) eqn:Hpos;
        [apply Z.ltb_lt in Hpos | apply Z.ltb_ge in Hpos]; lia.
    + rewrite IH by auto. reflexivity.
Qed.

Lemma gate_controller_holds s quiet :
  gate_inv s -> launches quiet = 0%nat -> (ticks quiet <= 15)%nat ->
  gate_controller_spec s quiet.
Proof.
  intros Hs Hq Hk. unfold gate_controller_spec.
  pose proof (gate_inv_event s (KEYDOWN K_SPACE) Hs) as H1.
  pose proof (gate_inv_event _ (KEYDOWN K_SPACE) H1) as H2.
  pose proof (gate_inv_stmts quiet _ H1) as H3.
  pose proof (gate_inv_tick s Hs) as H4.
  assert (gate_timer (exec_stmts quiet (handle_event s (KEYDOWN K_SPACE)))
          = 15 - Z.of_nat (ticks quiet)) as Ht3.
  { rewrite timer_countdown by (simpl; auto; lia). simpl. lia. }
  repeat split.
  - apply gate_inv_position, Hs.
  - rewrite (gate_inv_position _ H1). reflexivity.
  - rewrite (gate_inv_position _ H2). reflexivity.
  - apply gate_tick_timer.
  - rewrite (gate_inv_position _ H4), (gate_inv_position _ Hs), gate_tick_timer.
    destruct Hs as [Ht _].
    destruct (gate_timer s =? 1) eqn:E1;
      [apply Z.eqb_eq in E1; rewrite E1; reflexivity | apply Z.eqb_neq in E1].
    destruct (0 <? gate_timer s) eqn:E0;
      [apply Z.ltb_lt in E0 | rewrite E0; reflexivity].
    assert ((0 <? gate_timer s - 1) = true) as -> by (apply Z.ltb_lt; lia).
    reflexivity.
  - exact Ht3.
  - rewrite (gate_inv_position _ H3), Ht3.
    destruct (ticks quiet <? 15)%nat eqn:E.
    + apply Nat.ltb_lt in E.
      assert ((0 <? 15 - Z.of_nat (ticks quiet)) = true) as -> by (apply Z.ltb_lt; lia).
      reflexivity.
    + apply Nat.ltb_ge in E.
      assert ((0 <? 15 - Z.of_nat (ticks quiet)) = false) as -> by (apply Z.ltb_ge; lia).
      reflexivity.
Qed.

End GateFacts.

(** ** The loop as a statement sequence *)

Section LoopFacts.

Context {M : Type}.
Variables closed open : Z * Z.

Local Abbreviation handle_event := (@handle_event M open).
Local Abbreviation exec_stmt := (@exec_stmt M closed open).
Local Abbreviation exec_stmts := (@exec_stmts M closed open).
Local Abbreviation advance := (@advance M closed open).
Local Abbreviation run := (@run M closed open).
Local Abbreviation run_stmts := (@run_stmts M closed open).

Lemma exec_stmts_app sts1 sts2 (s : Main M) :
  exec_stmts (sts1 ++ sts2) s = exec_stmts sts2 (exec_stmts sts1 s).
Proof. apply fold_left_app. Qed.

Lemma handle_events_stmts evs (s : Main M) :
  handle_events open evs s = exec_stmts (map on_event evs) s.
Proof.
  revert s. induction evs as [|e evs IH]; intros s; [reflexivity|].
  simpl. apply IH.
Qed.

Lemma advance_stmts inp (s : Main M) :
  advance inp s = exec_stmts (frame_stmts inp) s.
Proof.
  unfold advance, frame_stmts.
  rewrite exec_stmts_app, handle_events_stmts. reflexivity.
Qed.

Lemma run_as_stmts inputs (s : Main M) :
  run inputs s = exec_stmts (run_stmts inputs s) s.
Proof.
  revert s. induction inputs as [|inp rest IH]; intros s; [reflexivity|].
  simpl. destruct (running s); [|reflexivity].
  rewrite exec_stmts_app, <- advance_stmts. apply IH.
Qed.

(** The launch counter: one more for each SPACE key press, whatever the
    state of the gate, and untouched by everything else. *)
Lemma launched_stmt (s : Main M) st :
  total_marbles_launched (exec_stmt s st)
  = total_marbles_launched s
    + match st with
      | on_event e => if is_launch e then 1 else 0
      | on_tick | on_step _ => 0
      end.
Proof.
  destruct st as [[|[|c]|t]| |pose]; simpl; try lia.
  unfold gate_tick. destruct (0 <? gate_timer s); simpl; lia.
Qed.

Lemma launched_stmts sts (s : Main M) :
  total_marbles_launched (exec_stmts sts s)
  = total_marbles_launched s + Z.of_nat (launches sts).
Proof.
  revert s. induction sts as [|st sts IH]; intros s.
  - unfold launches. simpl. lia.
  - change (exec_stmts (st :: sts) s) with (exec_stmts sts (exec_stmt s st)).
    rewrite IH, launched_stmt. unfold launches. simpl.
    destruct st as [e| |pose]; simpl; try lia.
    destruct (is_launch e); simpl; lia.
Qed.

(** What writes the timer. *)
Lemma timer_stmt (s : Main M) st :
  gate_timer (exec_stmt s st)
  = match st with
    | on_event e => if is_launch e then 15 else gate_timer s
    | on_tick => if 0 <? gate_timer s then gate_timer s - 1 else gate_timer s
    | on_step _ => gate_timer s
    end.
Proof.
  destruct st as [[|[|c]|t]| |pose]; simpl; try reflexivity.
  apply gate_tick_timer.
Qed.

End LoopFacts.

(** ** The initial states *)

(** [main] places the gate and the marbles with the [tube_x] that
    [create_boundaries] returns. *)
Lemma create_boundaries_tube_x sp :
  fst (MarbleCounter.create_boundaries sp) = MarbleCounter.tube_x.
Proof. reflexivity. Qed.

Lemma marble_init_gate_inv :
  gate_inv MarbleCounter.gate_closed_pos MarbleCounter.gate_open_pos
    MarbleCounter.init.
Proof.
  split.
  - change (gate_timer MarbleCounter.init) with 0. lia.
  - eexists. split; [vm_compute; reflexivity|].
    split; vm_compute; reflexivity.
Qed.

Lemma single_init_gate_inv :
  gate_inv SingleCounter.gate_closed_pos SingleCounter.gate_open_pos
    SingleCounter.init.
Proof.
  split.
  - change (gate_timer SingleCounter.init) with 0. lia.
  - eexists. split; [vm_compute; reflexivity|].
    split; vm_compute; reflexivity.
Qed.

Lemma marble_after_inv ops :
  gate_inv MarbleCounter.gate_closed_pos MarbleCounter.gate_open_pos
    (marble_after ops).
Proof. apply gate_inv_stmts, marble_init_gate_inv. Qed.

Lemma single_after_inv ops :
  gate_inv SingleCounter.gate_closed_pos SingleCounter.gate_open_pos
    (single_after ops).
Proof. apply gate_inv_stmts, single_init_gate_inv. Qed.

(** ** C2: the gate controller *)

(** C2. In every state of either program's loop: a launch puts the gate at
    [gate_open_pos] with the timer at 15, from CLOSED and from OPEN alike
    (a second launch gives the same state again); a simulation step
    decrements a positive timer by one and moves the gate back to
    [gate_closed_pos] when the timer reaches zero; and along a continuation
    without launches the gate stays open while fewer than 15 steps have
    passed and is exactly at [gate_closed_pos] after the 15th. *)
Theorem C2_gate_controller (ops quiet : list Stmt) :
  launches quiet = 0%nat -> (ticks quiet <= 15)%nat ->
  gate_controller_spec MarbleCounter.gate_closed_pos MarbleCounter.gate_open_pos
    (marble_after ops) quiet
  /\ gate_controller_spec SingleCounter.gate_closed_pos SingleCounter.gate_open_pos
       (single_after ops) quiet.
Proof.
  intros Hq Hk. split; apply gate_controller_holds;
    auto using marble_after_inv, single_after_inv.
Qed.

(** A launch in the initial state of either program, followed by fifteen
    frames without input. *)
Lemma C2_gate_controller_witness :
  launches fifteen_idle_frames = 0%nat
  /\ ticks fifteen_idle_frames = 15%nat
  /\ gate_controller_spec MarbleCounter.gate_closed_pos MarbleCounter.gate_open_pos
       (marble_after []) fifteen_idle_frames
  /\ gate_controller_spec SingleCounter.gate_closed_pos SingleCounter.gate_open_pos
       (single_after []) fifteen_idle_frames.
Proof.
  split; [reflexivity|]. split; [reflexivity|].
  apply (C2_gate_controller [] fifteen_idle_frames); [reflexivity|].
  vm_compute. lia.
Defined.

(** ** C10: the timer is bounded *)

(** C10. At every point of either program's loop, after any sequence of
    events, timer steps and physics steps, and in particular at the top of
    the loop after any run, [0 <= gate_timer <= 15]; a launch sets the timer
    to 15, a step decrements it only when it is positive, and no other
    statement writes it. *)
Theorem C10_gate_timer_bounded (ops : list Stmt) (inputs : list FrameInput) :
  (0 <= gate_timer (marble_after ops) <= 15
   /\ 0 <= gate_timer (single_after ops) <= 15)
  /\ (0 <= gate_timer (MarbleCounter.run inputs MarbleCounter.init) <= 15
      /\ 0 <= gate_timer (SingleCounter.run inputs SingleCounter.init) <= 15)
  /\ (forall st,
        gate_timer (exec_stmt MarbleCounter.gate_closed_pos
                      MarbleCounter.gate_open_pos (marble_after ops) st)
        = match st with
          | on_event e => if is_launch e then 15 else gate_timer (marble_after ops)
          | on_tick => if 0 <? gate_timer (marble_after ops)
                       then gate_timer (marble_after ops) - 1
                       else gate_timer (marble_after ops)
          | on_step _ => gate_timer (marble_after ops)
          end)
  /\ (forall st,
        gate_timer (exec_stmt SingleCounter.gate_closed_pos
                      SingleCounter.gate_open_pos (single_after ops) st)
        = match st with
          | on_event e => if is_launch e then 15 else gate_timer (single_after ops)
          | on_tick => if 0 <? gate_timer (single_after ops)
                       then gate_timer (single_after ops) - 1
                       else gate_timer (single_after ops)
          | on_step _ => gate_timer (single_after ops)
          end).
Proof.
  split; [split; [apply (marble_after_inv ops) | apply (single_after_inv ops)]|].
  split; [|split; intros st; apply timer_stmt].
  unfold MarbleCounter.run, SingleCounter.run. rewrite !run_as_stmts. split.
  - apply (marble_after_inv (run_stmts _ _ inputs MarbleCounter.init)).
  - apply (single_after_inv (run_stmts _ _ inputs SingleCounter.init)).
Qed.

(** ** C9: the count of launches *)

(** C9. In either program (any gate positions, any state of the locals) a
    SPACE key press adds exactly one to [total_marbles_launched], also when
    the gate is already open from a launch just made; every other event, the
    timer step and the physics step leave it unchanged; so after any
    statement sequence the count has grown by the number of SPACE presses
    and never decreases, and both displays show it as it is. *)
Theorem C9_launch_count {M : Type} (closed open : Z * Z)
    (s : Main M) (st : Stmt) (sts : list Stmt) :
  total_marbles_launched (handle_event open s (KEYDOWN K_SPACE))
    = total_marbles_launched s + 1
  /\ total_marbles_launched
       (handle_event open (handle_event open s (KEYDOWN K_SPACE)) (KEYDOWN K_SPACE))
     = total_marbles_launched (handle_event open s (KEYDOWN K_SPACE)) + 1
  /\ total_marbles_launched (exec_stmt closed open s st)
     = total_marbles_launched s
       + match st with
         | on_event e => if is_launch e then 1 else 0
         | on_tick | on_step _ => 0
         end
  /\ total_marbles_launched (exec_stmts closed open sts s)
     = total_marbles_launched s + Z.of_nat (launches sts)
  /\ total_marbles_launched s <= total_marbles_launched (exec_stmts closed open sts s)
  /\ (forall s' : Main (list BodyRef),
        MarbleCounter.text_count (MarbleCounter.readout s') = total_marbles_launched s')
  /\ (forall s' : Main BodyRef,
        SingleCounter.text_count (SingleCounter.readout s') = total_marbles_launched s').
Proof.
  split; [reflexivity|]. split; [reflexivity|].
  split; [apply launched_stmt|]. split; [apply launched_stmts|].
  split; [rewrite launched_stmts; lia|].
  split; intros s'; [|reflexivity].
  unfold MarbleCounter.readout. destruct (MarbleCounter.readout_loop _ _ _ _ _).
  reflexivity.
Qed.

(** ** The counter readout *)

Section Readout.

Import MarbleCounter.

Lemma weighted_from_cons i b bits :
  weighted_from i (b :: bits) = b * 2 ^ i + weighted_from (i + 1) bits.
Proof.
  unfold weighted_from. rewrite imap_cons. simpl. rewrite Z.add_0_r.
  f_equal. f_equal. apply imap_ext. intros k x _. simpl.
  do 2 f_equal. lia.
Qed.

Lemma enumerate_from_cons {A} i (x : A) xs :
  imap (fun k y => (i + Z.of_nat k, y)) (x :: xs)
  = (i, x) :: imap (fun k y => (i + 1 + Z.of_nat k, y)) xs.
Proof.
  rewrite imap_cons. simpl. rewrite Z.add_0_r. f_equal.
  apply imap_ext. intros k y _. simpl. f_equal. lia.
Qed.

(** The loop adds the weighted bits to its accumulator and appends their
    labels, starting at the index it is entered with. *)
Lemma readout_loop_spec sp ms : forall i acc labels,
  readout_loop sp i ms acc labels
  = (acc + weighted_from i (decode (map (body_angle sp) ms)),
     labels ++ imap (fun k b => (i + Z.of_nat k, b))
                    (decode (map (body_angle sp) ms))).
Proof.
  induction ms as [|m ms IH]; intros i acc labels.
  - simpl. unfold weighted_from. simpl. rewrite Z.add_0_r, app_nil_r. reflexivity.
  - simpl readout_loop. rewrite IH.
    change (decode (map (body_angle sp) (m :: ms)))
      with (bit_of_angle (Py.degrees (body_angle sp m))
            :: decode (map (body_angle sp) ms)).
    rewrite weighted_from_cons, enumerate_from_cons, <- app_assoc.
    simpl. f_equal. lia.
Qed.

Lemma readout_spec (s : Main (list BodyRef)) :
  readout s
  = {| bit_labels := enumerate (classified_bits s);
       binary_val := positional_sum (classified_bits s);
       text_count := total_marbles_launched s |}.
Proof.
  unfold readout. rewrite readout_loop_spec. reflexivity.
Qed.

End Readout.

(** ** C1: the readout is the positional sum *)

(** C1. For any number of mechanisms, in any state, the value the frame
    displays is the sum of [bit_i * 2^i] over the mechanisms in order, bit 0
    least significant, the bits being the ones shown in the labels; the bits
    [1,0,1,1] sum to 13, and a frame that finds the four mechanisms reading
    1, 0, 1, 1 displays 13. *)
Theorem C1_readout_positional_sum (inp : FrameInput) (s : Main (list BodyRef)) :
  MarbleCounter.binary_val (MarbleCounter.readout s)
    = positional_sum (classified_bits s)
  /\ MarbleCounter.bit_labels (MarbleCounter.readout s)
     = enumerate (classified_bits s)
  /\ MarbleCounter.binary_val (snd (MarbleCounter.frame inp s))
     = positional_sum (classified_bits (fst (MarbleCounter.frame inp s)))
  /\ positional_sum [1; 0; 1; 1] = 13
  /\ classified_bits (fst (MarbleCounter.frame frame_1011 MarbleCounter.init))
     = [1; 0; 1; 1]
  /\ MarbleCounter.binary_val (snd (MarbleCounter.frame frame_1011 MarbleCounter.init))
     = 13.
Proof.
  split; [rewrite readout_spec; reflexivity|].
  split; [rewrite readout_spec; reflexivity|].
  split; [unfold MarbleCounter.frame; simpl; rewrite readout_spec; reflexivity|].
  split; [reflexivity|].
  split; vm_compute; reflexivity.
Qed.

(** ** C3: the classification of an angle *)

(** A mechanism whose bit is 0 adds nothing to the accumulator. *)
Lemma readout_loop_zero_bit sp i m ms acc labels :
  MarbleCounter.bit_of_angle (Py.degrees (body_angle sp m)) = 0 ->
  MarbleCounter.readout_loop sp i (m :: ms) acc labels
  = MarbleCounter.readout_loop sp (i + 1) ms acc (labels ++ [(i, 0)]).
Proof.
  intros Hz. simpl. rewrite Hz, Z.mul_0_l, Z.add_0_r. reflexivity.
Qed.

(** The bit and the label the multi-bit readout gives the mechanism at
    index [i], from the angle of that mechanism in degrees. *)
Lemma classified_bit_at (s : Main (list BodyRef)) i m :
  mechs s !! i = Some m ->
  classified_bits s !! i
  = Some (MarbleCounter.bit_of_angle (Py.degrees (body_angle (space s) m))).
Proof.
  intros Hm. unfold classified_bits, decode, mech_angles.
  rewrite !list_lookup_fmap, Hm. reflexivity.
Qed.

Lemma bit_label_at (s : Main (list BodyRef)) i m :
  mechs s !! i = Some m ->
  MarbleCounter.bit_labels (MarbleCounter.readout s) !! i
  = Some (Z.of_nat i,
          MarbleCounter.bit_of_angle (Py.degrees (body_angle (space s) m))).
Proof.
  intros Hm. rewrite readout_spec. simpl. unfold enumerate.
  rewrite list_lookup_imap, (classified_bit_at s i m Hm). reflexivity.
Qed.

(** C3, as stated, fails for the multi-bit program: its bit is never
    undefined.  A frame that leaves the four mechanisms level, at 0 degrees
    and so between the two thresholds, shows [Bit i: 0] for each of them,
    exactly what a frame that leaves them at the lower limit shows. *)
Lemma C3_undefined_counterexample :
  ((5 <? Py.degrees 0)%float = false /\ (Py.degrees 0 <? -5)%float = false)
  /\ mech_angles (fst (MarbleCounter.frame idle_frame MarbleCounter.init))
     = [0; 0; 0; 0]%float
  /\ MarbleCounter.bit_labels (snd (MarbleCounter.frame idle_frame MarbleCounter.init))
     = [(0, 0); (1, 0); (2, 0); (3, 0)]
  /\ MarbleCounter.bit_labels
       (snd (MarbleCounter.frame {| events := []; solver := pose_all limit_min |}
               MarbleCounter.init))
     = [(0, 0); (1, 0); (2, 0); (3, 0)].
Proof. repeat split; vm_compute; reflexivity. Qed.

(** C3, amended.  Both readouts classify the angle of the mechanism body,
    converted to degrees, as the frame finds it.  In the multi-bit program
    the bit of the mechanism at index [i] has two values: 1 above +5
    degrees and 0 otherwise, so 0 below -5 degrees and 0 as well between
    the thresholds; a mechanism whose bit is 0 leaves the accumulator of the
    sum as it was.  In the single-mechanism program the display has three
    values: PAR above +5 degrees, IMPAR below -5 degrees, ["..."] in
    between.  What a frame displays is the readout of the state the frame
    ends in, which keeps nothing of earlier frames. *)
Theorem C3_bit_classification (s : Main (list BodyRef)) (t : Main BodyRef)
    (i : nat) (m : BodyRef) :
  mechs s !! i = Some m ->
  let d := Py.degrees (body_angle (space s) m) in
  let e := Py.degrees (body_angle (space t) (mechs t)) in
  (MarbleCounter.bit_labels (MarbleCounter.readout s) !! i
   = Some (Z.of_nat i, if (5 <? d)%float then 1 else 0)
   /\ classified_bits s !! i = Some (if (5 <? d)%float then 1 else 0))
  /\ ((5 <? d)%float = true -> classified_bits s !! i = Some 1)
  /\ ((d <? -5)%float = true -> classified_bits s !! i = Some 0)
  /\ ((5 <? d)%float = false ->
      classified_bits s !! i = Some 0
      /\ forall k ms acc labels,
           MarbleCounter.readout_loop (space s) k (m :: ms) acc labels
           = MarbleCounter.readout_loop (space s) (k + 1) ms acc
               (labels ++ [(k, 0)]))
  /\ (((5 <? e)%float = true ->
       SingleCounter.text_parity (SingleCounter.readout t) = "PAR"%string)
      /\ ((e <? -5)%float = true ->
          SingleCounter.text_parity (SingleCounter.readout t) = "IMPAR"%string)
      /\ ((5 <? e)%float = false -> (e <? -5)%float = false ->
          SingleCounter.text_parity (SingleCounter.readout t) = "..."%string))
  /\ (MarbleCounter.readout s
      = {| MarbleCounter.bit_labels := enumerate (classified_bits s);
           MarbleCounter.binary_val := positional_sum (classified_bits s);
           MarbleCounter.text_count := total_marbles_launched s |}
      /\ forall inp,
           snd (MarbleCounter.frame inp s)
           = MarbleCounter.readout (MarbleCounter.advance inp s)
           /\ snd (SingleCounter.frame inp t)
              = SingleCounter.readout (SingleCounter.advance inp t)).
Proof.
  intros Hm d e.
  pose proof (classified_bit_at s i m Hm) as Hbit.
  pose proof (bit_label_at s i m Hm) as Hlab.
  fold d in Hbit, Hlab. unfold MarbleCounter.bit_of_angle in Hbit, Hlab.
  split; [split; assumption|].
  split; [intros Hhi; rewrite Hbit, Hhi; reflexivity|].
  split.
  { intros Hlo. rewrite Hbit, (below_minus5_not_above5 _ Hlo). reflexivity. }
  split.
  { intros Hhi. split; [rewrite Hbit, Hhi; reflexivity|].
    intros k ms acc labels. apply readout_loop_zero_bit.
    fold d. unfold MarbleCounter.bit_of_angle. rewrite Hhi. reflexivity. }
  split; [|split; [apply readout_spec | intros inp; split; reflexivity]].
  unfold SingleCounter.readout, SingleCounter.parity_of_angle. cbn [SingleCounter.text_parity].
  fold e.
  split; [intros ->; reflexivity|].
  split.
  - intros Hlo. rewrite (below_minus5_not_above5 _ Hlo), Hlo. reflexivity.
  - intros -> ->. reflexivity.
Qed.

(** The first mechanism of the multi-bit program and the mechanism of the
    single program, as the programs set them before the loop: at -35
    degrees, read as bit 0 and as IMPAR. *)
Lemma C3_bit_classification_witness :
  mechs MarbleCounter.init !! 0%nat = Some (body_ref 1)
  /\ MarbleCounter.bit_labels (MarbleCounter.readout MarbleCounter.init) !! 0%nat
     = Some (0, 0)
  /\ SingleCounter.text_parity (SingleCounter.readout SingleCounter.init)
     = "IMPAR"%string.
Proof.
  split; [reflexivity|].
  split.
  - exact (proj1 (proj1 (C3_bit_classification MarbleCounter.init SingleCounter.init
                           0 (body_ref 1) eq_refl))).
  - exact (proj1 (proj2 (proj1 (proj2 (proj2 (proj2 (proj2
             (C3_bit_classification MarbleCounter.init SingleCounter.init
                0 (body_ref 1) eq_refl))))))) eq_refl).
Defined.

(** ** C5: no hysteresis *)

Lemma readout_same_angles (s1 s2 : Main (list BodyRef)) :
  mech_angles s1 = mech_angles s2 ->
  MarbleCounter.bit_labels (MarbleCounter.readout s1)
    = MarbleCounter.bit_labels (MarbleCounter.readout s2)
  /\ MarbleCounter.binary_val (MarbleCounter.readout s1)
     = MarbleCounter.binary_val (MarbleCounter.readout s2).
Proof.
  intros H. rewrite !readout_spec. unfold classified_bits. rewrite H.
  split; reflexivity.
Qed.

(** C5, as stated, fails.  Angle 0 lies between the thresholds.  A mechanism
    that read 1 in the frame before reads 0 as soon as it is found at angle
    0, exactly as a mechanism that read 0 before: the earlier reading is not
    held, and two states with the same angles always display the same
    bits. *)
Lemma C5_hysteresis_counterexample :
  ((5 <? Py.degrees 0)%float = false /\ (Py.degrees 0 <? -5)%float = false)
  /\ map MarbleCounter.bit_labels (MarbleCounter.displays run_A MarbleCounter.init)
     = [ [(0, 1); (1, 1); (2, 1); (3, 1)]; [(0, 0); (1, 0); (2, 0); (3, 0)] ]
  /\ map MarbleCounter.bit_labels (MarbleCounter.displays run_B MarbleCounter.init)
     = [ [(0, 0); (1, 0); (2, 0); (3, 0)]; [(0, 0); (1, 0); (2, 0); (3, 0)] ]
  /\ (forall s1 s2 : Main (list BodyRef),
        mech_angles s1 = mech_angles s2 ->
        MarbleCounter.bit_labels (MarbleCounter.readout s1)
        = MarbleCounter.bit_labels (MarbleCounter.readout s2)).
Proof.
  split; [split; vm_compute; reflexivity|].
  split; [vm_compute; reflexivity|].
  split; [vm_compute; reflexivity|].
  intros s1 s2 H. apply readout_same_angles, H.
Qed.

(** C5, amended.  Each frame reads the orientation of the mechanisms as the
    physics step of that frame left them and decodes it with the fixed
    threshold alone, [1] above 5 degrees and [0] otherwise: two states in
    which the mechanisms have the same angles display the same bits, the
    same value and the same parity, whatever happened before. *)
Theorem C5_threshold_only (s1 s2 : Main (list BodyRef)) (t1 t2 : Main BodyRef) :
  mech_angles s1 = mech_angles s2 ->
  body_angle (space t1) (mechs t1) = body_angle (space t2) (mechs t2) ->
  MarbleCounter.bit_labels (MarbleCounter.readout s1)
    = MarbleCounter.bit_labels (MarbleCounter.readout s2)
  /\ MarbleCounter.binary_val (MarbleCounter.readout s1)
     = MarbleCounter.binary_val (MarbleCounter.readout s2)
  /\ SingleCounter.text_parity (SingleCounter.readout t1)
     = SingleCounter.text_parity (SingleCounter.readout t2)
  /\ MarbleCounter.bit_labels (MarbleCounter.readout s1)
     = enumerate (map (fun a => if (5 <? Py.degrees a)%float then 1 else 0)
                      (mech_angles s1))
  /\ (forall inp,
        snd (MarbleCounter.frame inp s1)
        = MarbleCounter.readout (MarbleCounter.advance inp s1))
  /\ (forall inp,
        snd (SingleCounter.frame inp t1)
        = SingleCounter.readout (SingleCounter.advance inp t1)).
Proof.
  intros Hs Ht.
  split; [apply readout_same_angles, Hs|].
  split; [apply readout_same_angles, Hs|].
  split; [unfold SingleCounter.readout; simpl; rewrite Ht; reflexivity|].
  split; [rewrite readout_spec; reflexivity|].
  split; intros inp; reflexivity.
Qed.

(** The states at the end of runs A and B: different histories, the same
    angles. *)
Lemma C5_threshold_only_witness :
  MarbleCounter.bit_labels
    (MarbleCounter.readout (MarbleCounter.run run_A MarbleCounter.init))
  = MarbleCounter.bit_labels
      (MarbleCounter.readout (MarbleCounter.run run_B MarbleCounter.init))
  /\ SingleCounter.text_parity
       (SingleCounter.readout (SingleCounter.run run_A SingleCounter.init))
     = SingleCounter.text_parity
         (SingleCounter.readout (SingleCounter.run run_B SingleCounter.init)).
Proof.
  pose proof (C5_threshold_only
                (MarbleCounter.run run_A MarbleCounter.init)
                (MarbleCounter.run run_B MarbleCounter.init)
                (SingleCounter.run run_A SingleCounter.init)
                (SingleCounter.run run_B SingleCounter.init)) as H.
  destruct H as (H1 & _ & H3 & _); [vm_compute; reflexivity | vm_compute; reflexivity |].
  split; assumption.
Defined.

(** ** C7: marbles are never removed *)

Lemma marble_count_same sp sp' :
  shapes sp' = shapes sp -> length (bodies sp') = length (bodies sp) ->
  marble_count sp' = marble_count sp.
Proof.
  intros Hs Hl. unfold marble_count, is_marble. rewrite Hs, Hl. reflexivity.
Qed.

Lemma spawn_marble_count position sp :
  marble_count (exec (spawn_marble position) sp) = S (marble_count sp).
Proof.
  unfold marble_count, exec, spawn_marble, add_body. simpl.
  rewrite length_app. simpl. rewrite Nat.add_1_r, seq_S, List.filter_app, length_app.
  simpl. unfold is_marble at 2. simpl. rewrite existsb_app. simpl.
  rewrite Nat.eqb_refl, orb_true_r. simpl. rewrite Nat.add_1_r. f_equal. f_equal.
  apply List.filter_ext_in. intros k Hk. apply in_seq in Hk.
  unfold is_marble. simpl. rewrite existsb_app. simpl.
  assert ((length (bodies sp) =? k)%nat = false) as -> by (apply Nat.eqb_neq; lia).
  rewrite !orb_false_r. reflexivity.
Qed.

Section MarbleFacts.

Context {M : Type}.
Variables closed open : Z * Z.

Lemma stmt_shapes (s : Main M) st :
  shapes (space (exec_stmt closed open s st)) = shapes (space s).
Proof.
  destruct st as [[|[|c]|t]| |pose]; simpl; try reflexivity.
  - apply update_body_shapes.
  - unfold gate_tick. destruct (0 <? gate_timer s); [|reflexivity]. simpl.
    destruct (gate_timer s - 1 =? 0); [apply update_body_shapes | reflexivity].
Qed.

Lemma stmt_constraints (s : Main M) st :
  constraints (space (exec_stmt closed open s st)) = constraints (space s).
Proof.
  destruct st as [[|[|c]|t]| |pose]; simpl; try reflexivity.
  - apply update_body_constraints.
  - unfold gate_tick. destruct (0 <? gate_timer s); [|reflexivity]. simpl.
    destruct (gate_timer s - 1 =? 0); [apply update_body_constraints | reflexivity].
Qed.

Lemma stmt_bodies_length (s : Main M) st :
  length (bodies (space (exec_stmt closed open s st))) = length (bodies (space s)).
Proof.
  destruct st as [[|[|c]|t]| |pose]; simpl; try reflexivity.
  - apply update_body_length.
  - unfold gate_tick. destruct (0 <? gate_timer s); [|reflexivity]. simpl.
    destruct (gate_timer s - 1 =? 0); [apply update_body_length | reflexivity].
  - apply length_imap.
Qed.

(** The handles the locals hold are never reassigned. *)
Lemma stmt_handles (s : Main M) st :
  mechs (exec_stmt closed open s st) = mechs s
  /\ marbles (exec_stmt closed open s st) = marbles s
  /\ gate_body (exec_stmt closed open s st) = gate_body s.
Proof.
  destruct st as [[|[|c]|t]| |pose]; simpl; auto.
  unfold gate_tick. destruct (0 <? gate_timer s); auto.
Qed.

Lemma stmts_preserve sts : forall s : Main M,
  shapes (space (exec_stmts closed open sts s)) = shapes (space s)
  /\ constraints (space (exec_stmts closed open sts s)) = constraints (space s)
  /\ length (bodies (space (exec_stmts closed open sts s))) = length (bodies (space s))
  /\ mechs (exec_stmts closed open sts s) = mechs s
  /\ marbles (exec_stmts closed open sts s) = marbles s.
Proof.
  induction sts as [|st sts IH]; intros s; [simpl; auto|].
  change (exec_stmts closed open (st :: sts) s)
    with (exec_stmts closed open sts (exec_stmt closed open s st)).
  destruct (IH (exec_stmt closed open s st)) as (H1 & H2 & H3 & H4 & H5).
  destruct (stmt_handles s st) as (H6 & H7 & _).
  rewrite H1, H2, H3, H4, H5, stmt_shapes, stmt_constraints, stmt_bodies_length.
  auto.
Qed.

Lemma stmts_marble_count sts (s : Main M) :
  marble_count (space (exec_stmts closed open sts s)) = marble_count (space s).
Proof.
  destruct (stmts_preserve sts s) as (H1 & _ & H3 & _).
  apply marble_count_same; assumption.
Qed.

End MarbleFacts.

(** C7. [spawn_marble] adds exactly one marble to the space; no statement
    of the loop (event handling, timer step, physics step) changes the number
    of marbles, nor the list of marble handles; so along any run of either
    program the number of marbles after the first [k] frames is at most the
    number at the end.  The runs start with 10 and 5 marbles. *)
Theorem C7_marbles_never_removed {M : Type} (closed open : Z * Z)
    (s : Main M) (st : Stmt) (sts : list Stmt)
    (sp : Space) (position : Z * Z) (inputs : list FrameInput) (k : nat) :
  marble_count (exec (spawn_marble position) sp) = S (marble_count sp)
  /\ marble_count (space (exec_stmt closed open s st)) = marble_count (space s)
  /\ (marble_count (space s)
      <= marble_count (space (exec_stmts closed open sts s)))%nat
  /\ marbles (exec_stmts closed open sts s) = marbles s
  /\ (marble_count (space (MarbleCounter.run (take k inputs) MarbleCounter.init))
      <= marble_count (space (MarbleCounter.run inputs MarbleCounter.init)))%nat
  /\ (marble_count (space (SingleCounter.run (take k inputs) SingleCounter.init))
      <= marble_count (space (SingleCounter.run inputs SingleCounter.init)))%nat
  /\ marble_count (space MarbleCounter.init) = 10%nat
  /\ marble_count (space SingleCounter.init) = 5%nat.
Proof.
  split; [apply spawn_marble_count|].
  split; [apply (stmts_marble_count closed open [st] s)|].
  split; [rewrite stmts_marble_count; reflexivity|].
  split; [apply stmts_preserve|].
  unfold MarbleCounter.run, SingleCounter.run.
  rewrite !run_as_stmts, !stmts_marble_count.
  repeat split; reflexivity.
Qed.

(** ** C8: the initial configuration of the multi-bit counter *)

(** C8, as stated, fails: not all ten marbles start in the tube.  The tube
    is the pair of walls from y = 0 to y = 100; the fifth marble of the
    supply (index 4) is seeded at [(800, -24)], above the upper end of the
    walls, and so are the five after it. *)
Lemma C8_in_tube_counterexample :
  map geometry (take 3 (shapes (space MarbleCounter.init)))
    = [Segment (0, 990) (1000, 990) 10;
       Segment (784, 0) (784, 100) 4;
       Segment (816, 0) (816, 100) 4]
  /\ marbles MarbleCounter.init !! 4%nat = Some (body_ref 9)
  /\ body_position (space MarbleCounter.init) (body_ref 9) = vec (800, -24)
  /\ MarbleCounter.seed_position 4 = (800, -24)
  /\ between_wall_ends (MarbleCounter.seed_position 4) = false.
Proof. repeat split; vm_compute; reflexivity. Qed.

(** C8, amended.  When [main] of marble_counter.py enters its loop, each of
    the four mechanisms is at the lower limit of its rotary joint, which is
    -35 degrees and reads 0; exactly 10 marbles are in the space, at the ten
    seed positions, one straight above the other on the centre line of the
    tube, between the planes of its walls and above the gate: the lowest
    four between the ends of the walls, the next six stacked above the upper
    end; consecutive seed positions are 26 apart, more than the marble
    diameter 24. *)
Theorem C8_initial_configuration (i : Z) :
  mech_angles MarbleCounter.init = [limit_min; limit_min; limit_min; limit_min]
  /\ Py.degrees limit_min = (-35)%float
  /\ classified_bits MarbleCounter.init = [0; 0; 0; 0]
  /\ length (marbles MarbleCounter.init) = 10%nat
  /\ marble_count (space MarbleCounter.init) = 10%nat
  /\ map (body_position (space MarbleCounter.init)) (marbles MarbleCounter.init)
     = map (fun k => at_ (vec (MarbleCounter.seed_position k))) (Py.range 10)
  /\ gate_position MarbleCounter.init = vec MarbleCounter.gate_closed_pos
  /\ fst (MarbleCounter.seed_position i) = fst MarbleCounter.gate_closed_pos
  /\ forallb (fun k => in_tube_column_above_gate (MarbleCounter.seed_position k))
       (Py.range 10) = true
  /\ map (fun k => between_wall_ends (MarbleCounter.seed_position k)) (Py.range 10)
     = [true; true; true; true; false; false; false; false; false; false]
  /\ snd (MarbleCounter.seed_position i) - snd (MarbleCounter.seed_position (i + 1)) = 26
  /\ 2 * marble_radius < 26.
Proof.
  split; [vm_compute; reflexivity|].
  split; [exact degrees_limit_min|].
  split; [vm_compute; reflexivity|].
  split; [vm_compute; reflexivity|].
  split; [vm_compute; reflexivity|].
  split; [vm_compute; reflexivity|].
  split; [vm_compute; reflexivity|].
  split; [reflexivity|].
  split; [vm_compute; reflexivity|].
  split; [vm_compute; reflexivity|].
  split; [unfold MarbleCounter.seed_position; simpl; lia|].
  vm_compute. reflexivity.
Qed.

(** ** The joints of a mechanism *)

Lemma filter_none {A} (f : A -> bool) (l : list A) :
  (forall x, In x l -> f x = false) -> List.filter f l = [].
Proof.
  induction l as [|x l IH]; intros H; [reflexivity|].
  simpl. rewrite (H x) by (left; reflexivity).
  apply IH. intros y Hy. apply H. right. exact Hy.
Qed.

Lemma create_counter_mechanism_joints position sp :
  constraints_closed sp = true ->
  joints_of (constraints (snd (create_counter_mechanism position sp)))
    (fst (create_counter_mechanism position sp))
  = [PivotJoint static_body (fst (create_counter_mechanism position sp)) (vec position);
     RotaryLimitJoint static_body (fst (create_counter_mechanism position sp))
       limit_min limit_max].
Proof.
  intros Hc. unfold create_counter_mechanism, bind, add_body, add_constraint, ret.
  simpl. unfold joints_of. rewrite <- app_assoc, List.filter_app. simpl.
  rewrite Nat.eqb_refl. simpl.
  rewrite filter_none; [reflexivity|].
  intros c Hin. unfold constraints_closed in Hc.
  rewrite forallb_forall in Hc. specialize (Hc c Hin).
  apply andb_true_iff in Hc as [Ha Hb].
  destruct (joint_bodies c) as [a b]. simpl in *.
  destruct a as [|na], b as [|nb]; simpl in *; try reflexivity.
  - apply Nat.ltb_lt in Hb. apply Nat.eqb_neq. lia.
  - apply Nat.ltb_lt in Ha. rewrite orb_false_r. apply Nat.eqb_neq. lia.
  - apply Nat.ltb_lt in Ha. apply Nat.ltb_lt in Hb.
    apply orb_false_iff. split; apply Nat.eqb_neq; lia.
Qed.

Lemma body_angle_set_position r p sp r' :
  body_angle (update_body r (with_position p) sp) r' = body_angle sp r'.
Proof.
  unfold body_angle. destruct r as [|n]; [reflexivity|].
  destruct r' as [|n']; [reflexivity|]. simpl.
  rewrite list_lookup_alter. destruct (decide (n = n')) as [->|_]; [|reflexivity].
  destruct (bodies sp !! n'); reflexivity.
Qed.

Lemma marble_mechanisms_joined ops :
  Forall (mechanism_joined (space (marble_after ops))) (mechs (marble_after ops)).
Proof.
  unfold marble_after.
  destruct (stmts_preserve MarbleCounter.gate_closed_pos MarbleCounter.gate_open_pos
              ops MarbleCounter.init) as (_ & Hc & _ & Hm & _).
  rewrite Hm.
  change (mechs MarbleCounter.init)
    with [body_ref 1; body_ref 2; body_ref 3; body_ref 4].
  repeat constructor; eexists; rewrite Hc; vm_compute; reflexivity.
Qed.

Lemma single_mechanism_joined ops :
  mechanism_joined (space (single_after ops)) (mechs (single_after ops)).
Proof.
  unfold single_after.
  destruct (stmts_preserve SingleCounter.gate_closed_pos SingleCounter.gate_open_pos
              ops SingleCounter.init) as (_ & Hc & _ & Hm & _).
  rewrite Hm. change (mechs SingleCounter.init) with (body_ref 1).
  eexists. rewrite Hc. vm_compute. reflexivity.
Qed.

(** ** C6: the centre of gravity of a mechanism *)

Lemma create_counter_mechanism_body position sp :
  get_body (snd (create_counter_mechanism position sp))
    (fst (create_counter_mechanism position sp))
  = Some {| body_type := DYNAMIC; mass := 2%float;
            moment := moment_add
                        (moment_add (moment_for_poly 2%float h_bar_pts)
                                    (moment_for_poly 2%float v_bar_pts))
                        (moment_for_poly 2%float tip_pts);
            position := vec position; angle := 0%float;
            center_of_gravity := vec mechanism_cog |}.
Proof.
  unfold create_counter_mechanism, bind, add_body, add_constraint, ret. simpl.
  apply list_lookup_middle. reflexivity.
Qed.

(** C6, as stated, fails.  Gravity is [(0, 900)]: it pulls toward larger y.
    The centre of gravity of the first mechanism of marble_counter.py is at
    [(0, -20)] in body coordinates, which does not lie below the pivot; nor
    does the tail tip, so no point toward the tail tip is below the pivot. *)
Lemma C6_below_counterexample :
  center_of_gravity <$> get_body (space MarbleCounter.init) (body_ref 1)
    = Some (vec mechanism_cog)
  /\ gravity (space MarbleCounter.init) = (0, 900)%float
  /\ lies_below (gravity (space MarbleCounter.init)) (vec mechanism_cog) = false
  /\ lies_below (gravity (space MarbleCounter.init)) (vec tail_tip) = false.
Proof. repeat split; vm_compute; reflexivity. Qed.

(** C6, amended.  Every body made by [create_counter_mechanism] has its
    centre of gravity set to [(0, -20)] in body coordinates: on the axis of
    the tail, between the pivot and the tail tip, which is above the pivot
    (against gravity, the body being top-heavy), and neither at the body
    origin nor at the geometric centroid of the five polygons of the
    compound shape, which is [(0, -110039/4737)], about 23.2 from the
    pivot.  It stays above the pivot however the body is tilted short of a
    quarter turn, the limits of 35 degrees included. *)
Theorem C6_center_of_gravity (sp : Space) (position : Z * Z) :
  center_of_gravity
    <$> get_body (snd (create_counter_mechanism position sp))
          (fst (create_counter_mechanism position sp))
    = Some (vec mechanism_cog)
  /\ shapes (snd (create_counter_mechanism position sp))
     = shapes sp
       ++ map (fun pts => {| shape_body := fst (create_counter_mechanism position sp);
                             geometry := Poly pts;
                             elasticity := 0.1%float; friction := 0.3%float |})
            mechanism_polys
  /\ mechanism_cog = (0, -20)
  /\ between_pivot_and tail_tip mechanism_cog = true
  /\ (gravity create_space = (0, 900)%float
      /\ gravity (space MarbleCounter.init) = gravity create_space
      /\ gravity (space SingleCounter.init) = gravity create_space)
  /\ lies_above (gravity create_space) (vec mechanism_cog) = true
  /\ lies_above (gravity create_space) (vec tail_tip) = true
  /\ (forall c s : Q, (0 < c)%Q -> (rotated_y c s mechanism_cog < 0)%Q)
  /\ compound_centroid mechanism_polys = (0, -110039 # 4737)%Q
  /\ Qeq_bool (snd (compound_centroid mechanism_polys)) (inject_Z (snd mechanism_cog))
     = false
  /\ Qeq_bool 0 (inject_Z (snd mechanism_cog)) = false.
Proof.
  split; [rewrite create_counter_mechanism_body; reflexivity|].
  split; [reflexivity|].
  do 5 (split; [repeat split; vm_compute; reflexivity|]).
  split; [|repeat split; vm_compute; reflexivity].
  intros c s Hc. unfold rotated_y, mechanism_cog. cbn [fst snd].
  change (inject_Z 0) with 0%Q. change (inject_Z (-20)) with (-20 # 1)%Q. lra.
Qed.

(** The tilt of cosine 4/5 and sine 3/5, a little beyond the limit. *)
Lemma C6_center_of_gravity_witness :
  (0 < 4 # 5)%Q /\ (rotated_y (4 # 5) (3 # 5) mechanism_cog < 0)%Q.
Proof.
  split; [reflexivity|].
  apply (C6_center_of_gravity create_space (820, 220)). reflexivity.
Defined.

(** * Further properties of the two programs *)

(** ** The end of a run *)

Section RunFacts.

Context {M : Type}.
Variables closed open : Z * Z.

Lemma running_stmt (s : Main M) st :
  running (exec_stmt closed open s st)
  = running s && negb (quits [st]).
Proof.
  destruct st as [[|[|c]|t]| |pose]; unfold quits; simpl;
    rewrite ?andb_true_r, ?andb_false_r; try reflexivity.
  unfold gate_tick. destruct (0 <? gate_timer s); reflexivity.
Qed.

Lemma running_stmts sts : forall s : Main M,
  running (exec_stmts closed open sts s) = running s && negb (quits sts).
Proof.
  induction sts as [|st sts IH]; intros s.
  - unfold quits. simpl. rewrite andb_true_r. reflexivity.
  - change (exec_stmts closed open (st :: sts) s)
      with (exec_stmts closed open sts (exec_stmt closed open s st)).
    rewrite IH, running_stmt. unfold quits. simpl.
    rewrite orb_false_r, negb_orb, andb_assoc. reflexivity.
Qed.

Lemma quits_frame inp :
  quits (frame_stmts inp) = existsb is_quit (events inp).
Proof.
  unfold quits, frame_stmts. rewrite existsb_app. simpl. rewrite orb_false_r.
  induction (events inp) as [|e evs IH]; [reflexivity|].
  simpl. rewrite IH. reflexivity.
Qed.

Lemma running_advance inp (s : Main M) :
  running (advance closed open inp s)
  = running s && negb (existsb is_quit (events inp)).
Proof. rewrite advance_stmts, running_stmts, quits_frame. reflexivity. Qed.

Lemma run_stopped inputs (s : Main M) :
  running s = false -> run closed open inputs s = s.
Proof. intros H. destruct inputs; simpl; [reflexivity|]. rewrite H. reflexivity. Qed.

Lemma run_unfold inp rest (s : Main M) :
  run closed open (inp :: rest) s
  = if running s
    then if existsb is_quit (events inp)
         then advance closed open inp s
         else run closed open rest (advance closed open inp s)
    else s.
Proof.
  simpl. destruct (running s) eqn:Hr; [|reflexivity].
  destruct (existsb is_quit (events inp)) eqn:Hq; [|reflexivity].
  apply run_stopped. rewrite running_advance, Hr, Hq. reflexivity.
Qed.

End RunFacts.

Lemma displays_length inputs : forall s : Main (list BodyRef),
  length (MarbleCounter.displays inputs s)
  = if running s then frames_played inputs else 0%nat.
Proof.
  induction inputs as [|inp rest IH]; intros s; simpl.
  - destruct (running s); reflexivity.
  - destruct (running s) eqn:Hr; [|reflexivity]. simpl. rewrite IH.
    unfold MarbleCounter.advance. rewrite running_advance, Hr. simpl.
    destruct (existsb is_quit (events inp)); reflexivity.
Qed.

(** X1. [running] is only ever cleared: after any statements of the loop it
    is true exactly when it was true before and no [QUIT] was among the
    events.  The frame that receives [QUIT] is still played to its end and
    is the last one, whatever inputs follow; a run entered with [running]
    false does nothing; and the multi-bit program draws one display per
    frame played. *)
Theorem X1_quit_ends_the_run {M : Type} (closed open : Z * Z)
    (s : Main M) (sts : list Stmt) (inp : FrameInput) (rest : list FrameInput)
    (s' : Main (list BodyRef)) (inputs : list FrameInput) :
  running (exec_stmts closed open sts s) = running s && negb (quits sts)
  /\ run closed open (inp :: rest) s
     = (if running s
        then if existsb is_quit (events inp)
             then advance closed open inp s
             else run closed open rest (advance closed open inp s)
        else s)
  /\ length (MarbleCounter.displays inputs s')
     = (if running s' then frames_played inputs else 0%nat)
  /\ (frames_played inputs <= length inputs)%nat.
Proof.
  split; [apply running_stmts|]. split; [apply run_unfold|].
  split; [apply displays_length|].
  induction inputs as [|i l IH]; simpl; [lia|].
  destruct (existsb is_quit (events i)); lia.
Qed.

(** ** Bursts of launches, and how long the gate stays open *)

Lemma update_body_twice r (f : Body -> Body) sp :
  (forall b, f (f b) = f b) ->
  update_body r f (update_body r f sp) = update_body r f sp.
Proof.
  intros Hf. destruct r as [|n]; [reflexivity|]. simpl. f_equal.
  rewrite list_alter_alter_eq. apply list_alter_ext; [|reflexivity].
  intros b _. apply Hf.
Qed.

Section BurstFacts.

Context {M : Type}.
Variables closed open : Z * Z.

Local Abbreviation handle_event := (@handle_event M open).
Local Abbreviation handle_events := (@handle_events M open).
Local Abbreviation launch := (@launch M open).
Local Abbreviation exec_stmts := (@exec_stmts M closed open).

(** After a batch of events the space and the timer are those of a single
    launch when the batch holds a launch, and untouched otherwise. *)
Lemma handle_events_gate evs : forall s : Main M,
  space (handle_events evs s)
  = (if existsb is_launch evs then space (launch s) else space s)
  /\ gate_timer (handle_events evs s)
     = (if existsb is_launch evs then 15 else gate_timer s)
  /\ gate_body (handle_events evs s) = gate_body s.
Proof.
  induction evs as [|e evs IH]; intros s; [simpl; auto|].
  change (handle_events (e :: evs) s) with (handle_events evs (handle_event s e)).
  destruct (IH (handle_event s e)) as (Hs & Ht & Hg). rewrite Hs, Ht, Hg.
  destruct e as [|[|c]|t]; simpl; try (destruct (existsb is_launch evs); auto).
  repeat split; try reflexivity.
  unfold exec. simpl. apply update_body_twice. reflexivity.
Qed.

Lemma handle_events_launched evs : forall s : Main M,
  total_marbles_launched (handle_events evs s)
  = total_marbles_launched s + Z.of_nat (length (List.filter is_launch evs)).
Proof.
  induction evs as [|e evs IH]; intros s; [simpl; lia|].
  change (handle_events (e :: evs) s) with (handle_events evs (handle_event s e)).
  rewrite IH. destruct e as [|[|c]|t]; simpl; lia.
Qed.

Lemma launches_frames frames :
  forallb (fun f => negb (existsb is_launch (events f))) frames = true ->
  launches (concat (map frame_stmts frames)) = 0%nat.
Proof.
  unfold launches. induction frames as [|f frames IH]; intros H; [reflexivity|].
  simpl in H. apply andb_true_iff in H as [Hf Hr].
  simpl. rewrite List.filter_app, length_app, (IH Hr), Nat.add_0_r.
  unfold frame_stmts. rewrite List.filter_app, length_app. simpl.
  rewrite Nat.add_0_r. apply negb_true_iff in Hf.
  induction (events f) as [|e evs IHe]; [reflexivity|].
  simpl in *. apply orb_false_iff in Hf as [He Hevs].
  rewrite He. apply IHe, Hevs.
Qed.

Lemma ticks_frames frames :
  ticks (concat (map frame_stmts frames)) = length frames.
Proof.
  unfold ticks. induction frames as [|f frames IH]; [reflexivity|].
  simpl. rewrite List.filter_app, length_app, IH.
  unfold frame_stmts. rewrite List.filter_app, length_app. simpl.
  assert (length (List.filter
            (fun st => match st with on_tick => true | _ => false end)
            (map on_event (events f))) = 0%nat) as ->; [|reflexivity].
  induction (events f) as [|e evs IHe]; [reflexivity|]. simpl. exact IHe.
Qed.

Lemma advance_timer inp (s : Main M) :
  gate_timer (advance closed open inp s)
  = (if existsb is_launch (events inp) then 14
     else if 0 <? gate_timer s then gate_timer s - 1 else gate_timer s).
Proof.
  unfold advance, physics, with_space. cbn [gate_timer].
  rewrite gate_tick_timer.
  destruct (handle_events_gate (events inp) s) as (_ & Ht & _).
  rewrite Ht. destruct (existsb is_launch (events inp)); reflexivity.
Qed.

(** The timer after a frame with a launch and any number of frames without:
    the tick of the launch frame has already taken one step off. *)
Lemma timer_after_launch_frame inp0 frames (s : Main M) :
  existsb is_launch (events inp0) = true ->
  forallb (fun f => negb (existsb is_launch (events f))) frames = true ->
  gate_timer (exec_stmts (frame_stmts inp0 ++ concat (map frame_stmts frames)) s)
  = Z.max 0 (14 - Z.of_nat (length frames)).
Proof.
  intros H0 Hq. rewrite exec_stmts_app, <- advance_stmts.
  rewrite timer_countdown.
  - rewrite ticks_frames, advance_timer, H0. reflexivity.
  - apply launches_frames, Hq.
  - rewrite advance_timer, H0. lia.
Qed.

End BurstFacts.

(** X2. The gate absorbs a burst: after the events of one frame the space
    and the timer are exactly those after a single launch if the events
    hold at least one SPACE press, and unchanged if they hold none, however
    many presses there are and whatever other events, [QUIT] included, come
    with them; the launch count still grows by the number of presses. *)
Theorem X2_burst_of_launches {M : Type} (open : Z * Z)
    (evs : list Event) (s : Main M) :
  space (handle_events open evs s)
  = (if existsb is_launch evs then space (launch open s) else space s)
  /\ gate_timer (handle_events open evs s)
     = (if existsb is_launch evs then 15 else gate_timer s)
  /\ total_marbles_launched (handle_events open evs s)
     = total_marbles_launched s + Z.of_nat (length (List.filter is_launch evs)).
Proof.
  destruct (handle_events_gate open evs s) as (Hs & Ht & _).
  split; [exact Hs|]. split; [exact Ht|]. apply handle_events_launched.
Qed.

(** X3. From any point of either program's loop, a frame that receives a
    launch followed by [n] frames that receive none leaves the timer at
    [max 0 (14 - n)] and the gate at [gate_open_pos] if [n < 14], at
    [gate_closed_pos] otherwise: the physics steps of exactly 14 frames, the
    launch frame included, see the gate open. *)
Theorem X3_open_for_fourteen_steps (ops : list Stmt)
    (inp0 : FrameInput) (frames : list FrameInput) :
  existsb is_launch (events inp0) = true ->
  forallb (fun f => negb (existsb is_launch (events f))) frames = true ->
  (gate_timer (marble_after (ops ++ frame_stmts inp0 ++ concat (map frame_stmts frames)))
   = Z.max 0 (14 - Z.of_nat (length frames))
   /\ gate_position (marble_after (ops ++ frame_stmts inp0 ++ concat (map frame_stmts frames)))
      = vec (if (length frames <? 14)%nat
             then MarbleCounter.gate_open_pos else MarbleCounter.gate_closed_pos))
  /\ (gate_timer (single_after (ops ++ frame_stmts inp0 ++ concat (map frame_stmts frames)))
      = Z.max 0 (14 - Z.of_nat (length frames))
      /\ gate_position (single_after (ops ++ frame_stmts inp0 ++ concat (map frame_stmts frames)))
         = vec (if (length frames <? 14)%nat
                then SingleCounter.gate_open_pos else SingleCounter.gate_closed_pos)).
Proof.
  intros H0 Hq.
  assert (forall n : nat,
            (0 <? Z.max 0 (14 - Z.of_nat n)) = (n <? 14)%nat) as Hcmp.
  { intros n. destruct (n <? 14)%nat eqn:E.
    - apply Nat.ltb_lt in E. apply Z.ltb_lt. lia.
    - apply Nat.ltb_ge in E. apply Z.ltb_ge. lia. }
  split.
  - assert (gate_timer (marble_after (ops ++ frame_stmts inp0 ++ concat (map frame_stmts frames)))
            = Z.max 0 (14 - Z.of_nat (length frames))) as Ht.
    { unfold marble_after. rewrite exec_stmts_app.
      apply timer_after_launch_frame; assumption. }
    split; [exact Ht|].
    rewrite (gate_inv_position _ _ _ (marble_after_inv _)), Ht, Hcmp. reflexivity.
  - assert (gate_timer (single_after (ops ++ frame_stmts inp0 ++ concat (map frame_stmts frames)))
            = Z.max 0 (14 - Z.of_nat (length frames))) as Ht.
    { unfold single_after. rewrite exec_stmts_app.
      apply timer_after_launch_frame; assumption. }
    split; [exact Ht|].
    rewrite (gate_inv_position _ _ _ (single_after_inv _)), Ht, Hcmp. reflexivity.
Qed.

Lemma X3_open_for_fourteen_steps_witness :
  gate_timer (marble_after
                ([] ++ frame_stmts launch_frame
                    ++ concat (map frame_stmts thirteen_idle_frames)))
  = Z.max 0 (14 - Z.of_nat (length thirteen_idle_frames))
  /\ gate_position (marble_after
                      ([] ++ frame_stmts launch_frame
                          ++ concat (map frame_stmts thirteen_idle_frames)))
     = vec (if (length thirteen_idle_frames <? 14)%nat
            then MarbleCounter.gate_open_pos else MarbleCounter.gate_closed_pos).
Proof.
  exact (proj1 (X3_open_for_fourteen_steps [] launch_frame thirteen_idle_frames
                  eq_refl eq_refl)).
Defined.

(** ** What the statements of the loop leave alone *)

Lemma same_body_false r1 r2 : same_body r1 r2 = false -> r1 <> r2.
Proof.
  destruct r1 as [|n], r2 as [|k]; simpl; try discriminate; try congruence.
  intros H E. injection E as ->. rewrite Nat.eqb_refl in H. discriminate.
Qed.

Lemma body_position_update_other r r' f sp :
  r <> r' -> body_position (update_body r f sp) r' = body_position sp r'.
Proof.
  intros Hne. unfold body_position. destruct r as [|n]; [reflexivity|].
  destruct r' as [|n']; [reflexivity|]. simpl.
  rewrite list_lookup_alter_ne by congruence. reflexivity.
Qed.

Lemma fixed_alter_position p n (l : list Body) :
  map body_fixed (alter (with_position p) n l) = map body_fixed l.
Proof.
  revert n. induction l as [|b l IH]; intros [|n]; simpl; try reflexivity.
  all: f_equal; apply IH.
Qed.

Lemma fixed_imap_step pose (l : list Body) : forall k,
  map body_fixed (imap (fun n => step_body pose (k + n)) l) = map body_fixed l.
Proof.
  induction l as [|b l IH]; intros k; [reflexivity|].
  rewrite imap_cons. simpl. f_equal.
  - unfold step_body. destruct (body_type b) eqn:E; unfold body_fixed; simpl;
      rewrite ?E; reflexivity.
  - rewrite <- (IH (S k)). f_equal. apply imap_ext. intros n x _. simpl.
    f_equal. lia.
Qed.

Lemma fixed_update_position r p sp :
  map body_fixed (bodies (update_body r (with_position p) sp))
  = map body_fixed (bodies sp).
Proof. destruct r; [reflexivity|]. simpl. apply fixed_alter_position. Qed.

Section FixedFacts.

Context {M : Type}.
Variables closed open : Z * Z.

Lemma fixed_stmt (s : Main M) st :
  map body_fixed (bodies (space (exec_stmt closed open s st)))
  = map body_fixed (bodies (space s)).
Proof.
  destruct st as [[|[|c]|t]| |pose]; simpl; try reflexivity.
  - apply fixed_update_position.
  - unfold gate_tick. destruct (0 <? gate_timer s); [|reflexivity]. simpl.
    destruct (gate_timer s - 1 =? 0); [apply fixed_update_position | reflexivity].
  - apply (fixed_imap_step pose (bodies (space s)) 0).
Qed.

Lemma fixed_stmts sts : forall s : Main M,
  map body_fixed (bodies (space (exec_stmts closed open sts s)))
  = map body_fixed (bodies (space s)).
Proof.
  induction sts as [|st sts IH]; intros s; [reflexivity|].
  change (exec_stmts closed open (st :: sts) s)
    with (exec_stmts closed open sts (exec_stmt closed open s st)).
  rewrite IH. apply fixed_stmt.
Qed.

Lemma quiet_stmt_angle (s : Main M) e r :
  body_angle (space (handle_event open s e)) r = body_angle (space s) r
  /\ body_angle (space (gate_tick closed s)) r = body_angle (space s) r.
Proof.
  split.
  - destruct e as [|[|c]|t]; simpl; try reflexivity.
    apply body_angle_set_position.
  - unfold gate_tick. destruct (0 <? gate_timer s); [|reflexivity]. simpl.
    destruct (gate_timer s - 1 =? 0); [apply body_angle_set_position | reflexivity].
Qed.

Lemma quiet_stmt_position (s : Main M) e r :
  gate_body s <> r ->
  body_position (space (handle_event open s e)) r = body_position (space s) r
  /\ body_position (space (gate_tick closed s)) r = body_position (space s) r.
Proof.
  intros Hne. split.
  - destruct e as [|[|c]|t]; simpl; try reflexivity.
    apply body_position_update_other, Hne.
  - unfold gate_tick. destruct (0 <? gate_timer s); [|reflexivity]. simpl.
    destruct (gate_timer s - 1 =? 0);
      [apply body_position_update_other, Hne | reflexivity].
Qed.

End FixedFacts.

(** X4. Handling an event and stepping the gate timer write nothing but the
    position of the gate body: the angle of every body and the position of
    every body other than the gate are as before, so what the two programs
    display of the mechanisms (bits, value, parity) changes only across
    [space.step]. *)
Theorem X4_only_the_gate_is_moved {M : Type} (closed open : Z * Z)
    (s : Main M) (e : Event) (r : BodyRef)
    (sm : Main (list BodyRef)) (ss : Main BodyRef) :
  same_body (gate_body s) r = false ->
  (body_position (space (handle_event open s e)) r = body_position (space s) r
   /\ body_position (space (gate_tick closed s)) r = body_position (space s) r)
  /\ (body_angle (space (handle_event open s e)) r = body_angle (space s) r
      /\ body_angle (space (gate_tick closed s)) r = body_angle (space s) r)
  /\ (classified_bits (MarbleCounter.handle_event sm e) = classified_bits sm
      /\ classified_bits (MarbleCounter.gate_tick sm) = classified_bits sm)
  /\ (SingleCounter.text_parity (SingleCounter.readout (SingleCounter.handle_event ss e))
      = SingleCounter.text_parity (SingleCounter.readout ss)
      /\ SingleCounter.text_parity (SingleCounter.readout (SingleCounter.gate_tick ss))
         = SingleCounter.text_parity (SingleCounter.readout ss)).
Proof.
  intros Hne. apply same_body_false in Hne.
  split; [apply quiet_stmt_position, Hne|].
  split; [apply quiet_stmt_angle|].
  split.
  - unfold classified_bits, mech_angles, MarbleCounter.handle_event,
      MarbleCounter.gate_tick.
    destruct (stmt_handles MarbleCounter.gate_closed_pos MarbleCounter.gate_open_pos
                sm (on_event e)) as (Hm1 & _).
    destruct (stmt_handles MarbleCounter.gate_closed_pos MarbleCounter.gate_open_pos
                sm on_tick) as (Hm2 & _).
    simpl in Hm1, Hm2. rewrite Hm1, Hm2.
    split; f_equal; apply map_ext; intros r';
      apply (quiet_stmt_angle MarbleCounter.gate_closed_pos
               MarbleCounter.gate_open_pos sm e r').
  - unfold SingleCounter.readout, SingleCounter.handle_event, SingleCounter.gate_tick.
    destruct (stmt_handles SingleCounter.gate_closed_pos SingleCounter.gate_open_pos
                ss (on_event e)) as (Hm1 & _).
    destruct (stmt_handles SingleCounter.gate_closed_pos SingleCounter.gate_open_pos
                ss on_tick) as (Hm2 & _).
    simpl in Hm1, Hm2. simpl. rewrite Hm1, Hm2.
    destruct (quiet_stmt_angle SingleCounter.gate_closed_pos
                SingleCounter.gate_open_pos ss e (mechs ss)) as [H1 H2].
    rewrite H1, H2. split; reflexivity.
Qed.

(** A launch in the initial state of the multi-bit program, seen from the
    lowest marble of the supply. *)
Lemma X4_only_the_gate_is_moved_witness :
  same_body (gate_body MarbleCounter.init) (body_ref 5) = false
  /\ body_position
       (space (handle_event MarbleCounter.gate_open_pos MarbleCounter.init
                 (KEYDOWN K_SPACE))) (body_ref 5)
     = body_position (space MarbleCounter.init) (body_ref 5).
Proof.
  split; [reflexivity|].
  exact (proj1 (proj1 (X4_only_the_gate_is_moved MarbleCounter.gate_closed_pos
                         MarbleCounter.gate_open_pos MarbleCounter.init
                         (KEYDOWN K_SPACE) (body_ref 5)
                         MarbleCounter.init SingleCounter.init eq_refl))).
Defined.

(** X5. No statement of the loop, the physics step included, changes the
    type, the mass, the moment or the centre of gravity of any body, nor the
    number of bodies: along any sequence of statements only positions and
    angles change. *)
Theorem X5_bodies_keep_their_make {M : Type} (closed open : Z * Z)
    (sts : list Stmt) (s : Main M) :
  map body_fixed (bodies (space (exec_stmts closed open sts s)))
  = map body_fixed (bodies (space s))
  /\ shapes (space (exec_stmts closed open sts s)) = shapes (space s)
  /\ constraints (space (exec_stmts closed open sts s)) = constraints (space s)
  /\ gravity (space (exec_stmts closed open sts s)) = gravity (space s).
Proof.
  split; [apply fixed_stmts|].
  destruct (stmts_preserve closed open sts s) as (H1 & H2 & _).
  split; [exact H1|]. split; [exact H2|].
  clear H1 H2. revert s. induction sts as [|st sts IH]; intros s; [reflexivity|].
  change (exec_stmts closed open (st :: sts) s)
    with (exec_stmts closed open sts (exec_stmt closed open s st)).
  rewrite IH. destruct st as [[|[|c]|t]| |pose]; simpl; try reflexivity.
  - destruct (gate_body s); reflexivity.
  - unfold gate_tick. destruct (0 <? gate_timer s); [|reflexivity]. simpl.
    destruct (gate_timer s - 1 =? 0); [|reflexivity].
    destruct (gate_body s); reflexivity.
Qed.

(** ** The displayed number and the bits *)

Lemma weighted_from_shift bits : forall i,
  0 <= i -> weighted_from (i + 1) bits = 2 * weighted_from i bits.
Proof.
  induction bits as [|b bits IH]; intros i Hi; [reflexivity|].
  rewrite !weighted_from_cons, IH by lia.
  rewrite Z.pow_add_r by lia. change (2 ^ 1) with 2. ring.
Qed.

Lemma positional_sum_cons b bits :
  positional_sum (b :: bits) = b + 2 * positional_sum bits.
Proof.
  change (positional_sum (b :: bits)) with (weighted_from 0 (b :: bits)).
  rewrite weighted_from_cons, (weighted_from_shift bits 0) by lia.
  change (weighted_from 0 bits) with (positional_sum bits).
  change (2 ^ 0) with 1. lia.
Qed.

Lemma positional_sum_bound (bs : list bool) :
  0 <= positional_sum (map Z.b2z bs) < 2 ^ Z.of_nat (length bs).
Proof.
  induction bs as [|b bs IH]; [simpl; unfold positional_sum; simpl; lia|].
  change (map Z.b2z (b :: bs)) with (Z.b2z b :: map Z.b2z bs).
  rewrite positional_sum_cons.
  change (length (b :: bs)) with (S (length bs)).
  rewrite Nat2Z.inj_succ, Z.pow_succ_r by lia.
  destruct b; simpl Z.b2z; lia.
Qed.

Lemma positional_sum_testbit (bs : list bool) : forall i : nat,
  Z.testbit (positional_sum (map Z.b2z bs)) (Z.of_nat i)
  = match bs !! i with Some b => b | None => false end.
Proof.
  induction bs as [|b bs IH]; intros i.
  - unfold positional_sum. simpl. apply Z.testbit_0_l.
  - change (map Z.b2z (b :: bs)) with (Z.b2z b :: map Z.b2z bs).
    rewrite positional_sum_cons, Z.add_comm. destruct i as [|i].
    + simpl. apply Z.testbit_0_r.
    + rewrite Nat2Z.inj_succ, Z.testbit_succ_r by lia. simpl. apply IH.
Qed.

Lemma classified_bits_bools (s : Main (list BodyRef)) :
  classified_bits s
  = map Z.b2z (map (fun a => (5 <? Py.degrees a)%float) (mech_angles s)).
Proof.
  unfold classified_bits, decode. rewrite map_map. apply map_ext.
  intros a. unfold MarbleCounter.bit_of_angle.
  destruct (5 <? Py.degrees a)%float; reflexivity.
Qed.

(** X6. With [N] mechanisms the displayed number lies in [0, 2^N), and it
    loses nothing: its binary digit [i] is 1 exactly when mechanism [i] is
    found above +5 degrees, and 0 for [i] beyond the last mechanism.  The
    four-bit program therefore never displays more than 15. *)
Theorem X6_display_is_binary (s : Main (list BodyRef)) (i : nat) (ops : list Stmt) :
  0 <= MarbleCounter.binary_val (MarbleCounter.readout s)
    < 2 ^ Z.of_nat (length (mechs s))
  /\ Z.testbit (MarbleCounter.binary_val (MarbleCounter.readout s)) (Z.of_nat i)
     = match mech_angles s !! i with
       | Some a => (5 <? Py.degrees a)%float
       | None => false
       end
  /\ 0 <= MarbleCounter.binary_val (MarbleCounter.readout (marble_after ops)) <= 15.
Proof.
  rewrite !readout_spec. simpl. rewrite !classified_bits_bools.
  split; [|split].
  - pose proof (positional_sum_bound
                  (map (fun a => (5 <? Py.degrees a)%float) (mech_angles s))) as H.
    unfold mech_angles in H. rewrite !length_map in H. exact H.
  - rewrite positional_sum_testbit, list_lookup_fmap.
    destruct (mech_angles s !! i); reflexivity.
  - pose proof (positional_sum_bound
                  (map (fun a => (5 <? Py.degrees a)%float)
                       (mech_angles (marble_after ops)))) as H.
    assert (length (mech_angles (marble_after ops)) = 4%nat) as Hlen.
    { unfold mech_angles, marble_after. rewrite length_map.
      destruct (stmts_preserve MarbleCounter.gate_closed_pos
                  MarbleCounter.gate_open_pos ops MarbleCounter.init)
        as (_ & _ & _ & Hm & _).
      rewrite Hm. reflexivity. }
    rewrite length_map, Hlen in H. change (2 ^ Z.of_nat 4) with 16 in H. lia.
Qed.

(** ** Building the world *)

Lemma extends_refl sp : extends sp sp.
Proof. repeat split; reflexivity. Qed.

Lemma extends_trans sp1 sp2 sp3 :
  extends sp1 sp2 -> extends sp2 sp3 -> extends sp1 sp3.
Proof.
  intros (Hg1 & Hb1 & Hs1 & Hc1) (Hg2 & Hb2 & Hs2 & Hc2).
  repeat split; [congruence | | |]; etrans; eassumption.
Qed.

Lemma extends_add_shape s sp : extends sp (exec (add_shape s) sp).
Proof.
  repeat split; simpl; try reflexivity. apply prefix_app_r. reflexivity.
Qed.

Lemma extends_add_body b ss sp : extends sp (exec (add_body b ss) sp).
Proof.
  repeat split; simpl; try reflexivity; apply prefix_app_r; reflexivity.
Qed.

Lemma extends_add_constraint c sp : extends sp (exec (add_constraint c) sp).
Proof.
  repeat split; simpl; try reflexivity. apply prefix_app_r. reflexivity.
Qed.

Lemma extends_create_gate position sp : extends sp (exec (create_gate position) sp).
Proof. apply extends_add_body. Qed.

Lemma extends_spawn_marble position sp :
  extends sp (exec (spawn_marble position) sp).
Proof. apply extends_add_body. Qed.

Lemma extends_create_counter_mechanism position sp :
  extends sp (exec (create_counter_mechanism position) sp).
Proof.
  unfold create_counter_mechanism, exec, bind, ret. simpl.
  repeat split; simpl; try reflexivity.
  - apply prefix_app_r. reflexivity.
  - apply prefix_app_r. reflexivity.
  - rewrite <- app_assoc. apply prefix_app_r. reflexivity.
Qed.

Lemma extends_create_catch_funnel x y sp :
  extends sp (exec (MarbleCounter.create_catch_funnel x y) sp).
Proof.
  unfold MarbleCounter.create_catch_funnel, exec, bind. simpl.
  repeat split; simpl; try reflexivity.
  rewrite <- app_assoc. apply prefix_app_r. reflexivity.
Qed.

Lemma extends_marble_boundaries sp :
  extends sp (exec MarbleCounter.create_boundaries sp).
Proof.
  unfold MarbleCounter.create_boundaries, exec, bind, ret. simpl.
  repeat split; simpl; try reflexivity.
  rewrite <- !app_assoc. apply prefix_app_r. reflexivity.
Qed.

Lemma extends_single_boundaries sp :
  extends sp (exec SingleCounter.create_boundaries sp).
Proof.
  unfold SingleCounter.create_boundaries, exec, bind. simpl.
  repeat split; simpl; try reflexivity.
  rewrite <- !app_assoc. apply prefix_app_r. reflexivity.
Qed.

Lemma body_at_new b ss sp :
  body_at (exec (add_body b ss) sp) (fst (add_body b ss sp))
  = Some (body_type b, position b).
Proof.
  unfold body_at, exec. simpl.
  rewrite (list_lookup_middle (bodies sp) [] b (length (bodies sp)) eq_refl).
  reflexivity.
Qed.

(** X7. The functions that build the world only ever add to the space:
    whatever the space holds before a call of [create_gate],
    [create_counter_mechanism], [spawn_marble], [create_boundaries] (of
    either program) or [create_catch_funnel], it holds after it, unchanged
    and under the same handles.  The boundary and funnel builders add
    neither a body nor a constraint.  The three body builders, asked for a
    position whose coordinates convert to doubles, return the handle of a
    new body, the next free one, which is found at that position, each
    coordinate converted: kinematic for the gate, dynamic for a mechanism
    and for a marble. *)
Theorem X7_builders_only_add (sp : Space) (position : Z * Z) (x y : Z) :
  point_fits position = true ->
  (extends sp (exec (create_gate position) sp)
   /\ extends sp (exec (create_counter_mechanism position) sp)
   /\ extends sp (exec (spawn_marble position) sp)
   /\ extends sp (exec MarbleCounter.create_boundaries sp)
   /\ extends sp (exec SingleCounter.create_boundaries sp)
   /\ extends sp (exec (MarbleCounter.create_catch_funnel x y) sp))
  /\ (bodies (exec MarbleCounter.create_boundaries sp) = bodies sp
      /\ constraints (exec MarbleCounter.create_boundaries sp) = constraints sp
      /\ bodies (exec SingleCounter.create_boundaries sp) = bodies sp
      /\ constraints (exec SingleCounter.create_boundaries sp) = constraints sp
      /\ bodies (exec (MarbleCounter.create_catch_funnel x y) sp) = bodies sp
      /\ constraints (exec (MarbleCounter.create_catch_funnel x y) sp) = constraints sp)
  /\ (fst (create_gate position sp) = body_ref (length (bodies sp))
      /\ fst (create_counter_mechanism position sp) = body_ref (length (bodies sp))
      /\ fst (spawn_marble position sp) = body_ref (length (bodies sp)))
  /\ (body_at (exec (create_gate position) sp) (fst (create_gate position sp))
      = Some (KINEMATIC, at_ (vec position))
      /\ body_at (exec (create_counter_mechanism position) sp)
           (fst (create_counter_mechanism position sp))
         = Some (DYNAMIC, at_ (vec position))
      /\ body_at (exec (spawn_marble position) sp) (fst (spawn_marble position sp))
         = Some (DYNAMIC, at_ (vec position))).
Proof.
  intros _.
  split.
  { split; [apply extends_create_gate|].
    split; [apply extends_create_counter_mechanism|].
    split; [apply extends_spawn_marble|].
    split; [apply extends_marble_boundaries|].
    split; [apply extends_single_boundaries | apply extends_create_catch_funnel]. }
  split; [repeat split; reflexivity|].
  split; [repeat split; reflexivity|].
  split; [apply body_at_new|]. split; [|apply body_at_new].
  unfold body_at, exec. rewrite create_counter_mechanism_body. reflexivity.
Qed.

(** The gate of the multi-bit program, built in the space [create_space]
    returns. *)
Lemma X7_builders_only_add_witness :
  point_fits MarbleCounter.gate_closed_pos = true
  /\ fst (create_gate MarbleCounter.gate_closed_pos create_space) = body_ref 0
  /\ body_at (exec (create_gate MarbleCounter.gate_closed_pos) create_space)
       (fst (create_gate MarbleCounter.gate_closed_pos create_space))
     = Some (KINEMATIC, at_ (800, 103)%float).
Proof.
  split; [reflexivity|].
  split.
  - exact (proj1 (proj1 (proj2 (proj2
             (X7_builders_only_add create_space MarbleCounter.gate_closed_pos 0 0
                eq_refl))))).
  - exact (proj1 (proj2 (proj2 (proj2
             (X7_builders_only_add create_space MarbleCounter.gate_closed_pos 0 0
                eq_refl))))).
Defined.

(** ** The loop that places the mechanisms, for any number of bits *)






Lemma for_each_cons {A B} (f : A -> Sim B) x xs sp :
  for_each f (x :: xs) sp
  = (fst (f x sp) :: fst (for_each f xs (snd (f x sp))),
     snd (for_each f xs (snd (f x sp)))).
Proof.
  simpl. unfold bind, ret. destruct (f x sp) as [y sp1]. simpl.
  destruct (for_each f xs sp1) as [ys sp2]. reflexivity.
Qed.







(** ** The loop that seeds the marbles, for any number of marbles *)

Lemma body_at_extends sp sp' r x :
  extends sp sp' -> body_at sp r = Some x -> body_at sp' r = Some x.
Proof.
  intros (_ & Hpre & _) H. unfold body_at in *.
  destruct r as [|n]; [discriminate|]. simpl in *.
  destruct (bodies sp !! n) as [b|] eqn:Hb; [|discriminate].
  rewrite (prefix_lookup_Some _ _ _ _ Hb Hpre). exact H.
Qed.

Lemma for_each_spawn (g : Z -> Z * Z) (idx : list Z) : forall sp,
  fst (for_each (fun i => spawn_marble (g i)) idx sp)
    = map body_ref (seq (length (bodies sp)) (length idx))
  /\ extends sp (snd (for_each (fun i => spawn_marble (g i)) idx sp))
  /\ marble_count (snd (for_each (fun i => spawn_marble (g i)) idx sp))
     = (marble_count sp + length idx)%nat
  /\ constraints (snd (for_each (fun i => spawn_marble (g i)) idx sp))
     = constraints sp
  /\ map (body_at (snd (for_each (fun i => spawn_marble (g i)) idx sp)))
         (fst (for_each (fun i => spawn_marble (g i)) idx sp))
     = map (fun i => Some (DYNAMIC, at_ (vec (g i)))) idx.
Proof.
  induction idx as [|i idx IH]; intros sp.
  - simpl. repeat split; try reflexivity; try lia.
  - rewrite for_each_cons.
    pose proof (extends_spawn_marble (g i) sp) as Hext.
    pose proof (spawn_marble_count (g i) sp) as Hcount.
    pose proof (body_at_new
                  (with_position (vec (g i))
                     (new_Body 12%float (moment_for_circle 12%float 0 marble_radius)
                        DYNAMIC))
                  [fun r => {| shape_body := r; geometry := Circle marble_radius;
                               elasticity := 0.1%float; friction := 0.5%float |}]
                  sp) as Hat.
    change (add_body _ _) with (spawn_marble (g i)) in Hat.
    unfold exec in *.
    destruct (IH (snd (spawn_marble (g i) sp))) as (Hh & He & Hm & Hc & Hp).
    assert (length (bodies (snd (spawn_marble (g i) sp))) = S (length (bodies sp)))
      as Hl1 by (simpl; rewrite length_app; simpl; lia).
    cbn [fst snd].
    split; [|split; [|split; [|split]]].
    + rewrite Hh, Hl1. reflexivity.
    + eapply extends_trans; eassumption.
    + rewrite Hm, Hcount. simpl. lia.
    + rewrite Hc. reflexivity.
    + cbn [map]. rewrite Hp. f_equal.
      apply (body_at_extends _ _ _ _ He). exact Hat.
Qed.

(** X9. The loop that seeds the supply, [for i in range(n)] with any
    position per index, on any space, the coordinates of every position
    converting to doubles: it returns [n] handles, the next free ones in
    order, each of a dynamic body at the position of its index, each
    coordinate converted; it adds exactly [n] marbles and no constraint,
    and leaves what the space held before untouched. *)
Theorem X9_seeding_marbles (g : Z -> Z * Z) (n : nat) (sp : Space) :
  forallb (fun i => point_fits (g i)) (Py.range n) = true ->
  fst (for_each (fun i => spawn_marble (g i)) (Py.range n) sp)
    = map body_ref (seq (length (bodies sp)) n)
  /\ extends sp (snd (for_each (fun i => spawn_marble (g i)) (Py.range n) sp))
  /\ marble_count (snd (for_each (fun i => spawn_marble (g i)) (Py.range n) sp))
     = (marble_count sp + n)%nat
  /\ constraints (snd (for_each (fun i => spawn_marble (g i)) (Py.range n) sp))
     = constraints sp
  /\ map (body_at (snd (for_each (fun i => spawn_marble (g i)) (Py.range n) sp)))
         (fst (for_each (fun i => spawn_marble (g i)) (Py.range n) sp))
     = map (fun i => Some (DYNAMIC, at_ (vec (g i)))) (Py.range n).
Proof.
  intros _.
  pose proof (for_each_spawn g (Py.range n) sp) as H.
  assert (length (Py.range n) = n) as Hlen
    by (unfold Py.range; rewrite length_map, length_seq; reflexivity).
  rewrite Hlen in H. exact H.
Qed.

(** The ten marbles of the multi-bit program, seeded in the space
    [create_space] returns. *)
Lemma X9_seeding_marbles_witness :
  forallb (fun i => point_fits (MarbleCounter.seed_position i)) (Py.range 10) = true
  /\ fst (for_each (fun i => spawn_marble (MarbleCounter.seed_position i))
            (Py.range 10) create_space)
     = map body_ref (seq 0 10)
  /\ marble_count (snd (for_each (fun i => spawn_marble (MarbleCounter.seed_position i))
                          (Py.range 10) create_space))
     = 10%nat.
Proof.
  split; [reflexivity|].
  split.
  - exact (proj1 (X9_seeding_marbles MarbleCounter.seed_position 10 create_space
                    eq_refl)).
  - exact (proj1 (proj2 (proj2
             (X9_seeding_marbles MarbleCounter.seed_position 10 create_space
                eq_refl)))).
Defined.

(** ** The bar of the gate and the tube *)

(** X10. At every point of the loop of either program the gate body is
    where the timer says: at [gate_closed_pos] when the timer is 0, and then
    the bar spans the whole clear width of the tube; at [gate_open_pos] when
    the timer runs, and then the bar lies entirely beside the clear width,
    which is exactly one marble diameter. *)
Theorem X10_bar_blocks_or_clears (ops : list Stmt) :
  (gate_position (marble_after ops)
   = vec (gate_place MarbleCounter.gate_closed_pos MarbleCounter.gate_open_pos
            (marble_after ops))
   /\ bar_covers_tube (space (marble_after ops))
        (gate_place MarbleCounter.gate_closed_pos MarbleCounter.gate_open_pos
           (marble_after ops))
      = negb (0 <? gate_timer (marble_after ops))
   /\ bar_beside_tube (space (marble_after ops))
        (gate_place MarbleCounter.gate_closed_pos MarbleCounter.gate_open_pos
           (marble_after ops))
      = (0 <? gate_timer (marble_after ops))
   /\ snd (tube_clear (space (marble_after ops)))
        - fst (tube_clear (space (marble_after ops))) = 2 * marble_radius)
  /\ (gate_position (single_after ops)
      = vec (gate_place SingleCounter.gate_closed_pos SingleCounter.gate_open_pos
               (single_after ops))
      /\ bar_covers_tube (space (single_after ops))
           (gate_place SingleCounter.gate_closed_pos SingleCounter.gate_open_pos
              (single_after ops))
         = negb (0 <? gate_timer (single_after ops))
      /\ bar_beside_tube (space (single_after ops))
           (gate_place SingleCounter.gate_closed_pos SingleCounter.gate_open_pos
              (single_after ops))
         = (0 <? gate_timer (single_after ops))
      /\ snd (tube_clear (space (single_after ops)))
           - fst (tube_clear (space (single_after ops))) = 2 * marble_radius).
Proof.
  split.
  - destruct (stmts_preserve MarbleCounter.gate_closed_pos MarbleCounter.gate_open_pos
                ops MarbleCounter.init) as (Hs & _).
    fold (marble_after ops) in Hs.
    unfold bar_covers_tube, bar_beside_tube, tube_clear, bar_reach, gate_place.
    rewrite Hs. split; [apply gate_inv_position, marble_after_inv|].
    destruct (0 <? gate_timer (marble_after ops)); repeat split; reflexivity.
  - destruct (stmts_preserve SingleCounter.gate_closed_pos SingleCounter.gate_open_pos
                ops SingleCounter.init) as (Hs & _).
    fold (single_after ops) in Hs.
    unfold bar_covers_tube, bar_beside_tube, tube_clear, bar_reach, gate_place.
    rewrite Hs. split; [apply gate_inv_position, single_after_inv|].
    destruct (0 <? gate_timer (single_after ops)); repeat split; reflexivity.
Qed.

(** ** The handles the locals hold *)

Lemma type_at_fixed sp sp' r :
  map body_fixed (bodies sp') = map body_fixed (bodies sp) ->
  type_at sp' r = type_at sp r.
Proof.
  intros H. unfold type_at. destruct r as [|n]; [reflexivity|]. simpl.
  assert (map body_fixed (bodies sp') !! n = map body_fixed (bodies sp) !! n) as Hn
    by (rewrite H; reflexivity).
  rewrite !list_lookup_fmap in Hn.
  destruct (bodies sp' !! n) as [b'|], (bodies sp !! n) as [b|];
    simpl in *; try discriminate; [|reflexivity].
  injection Hn as Hn. unfold body_fixed in Hn. congruence.
Qed.

Lemma stmts_gate_body {M} (closed open : Z * Z) sts : forall s : Main M,
  gate_body (exec_stmts closed open sts s) = gate_body s.
Proof.
  induction sts as [|st sts IH]; intros s; [reflexivity|].
  change (exec_stmts closed open (st :: sts) s)
    with (exec_stmts closed open sts (exec_stmt closed open s st)).
  rewrite IH. apply stmt_handles.
Qed.

(** X11. At every point of the loop of either program the locals hold the
    handles they were given at the start, each of a body of the space of
    the kind it was made: the gate kinematic, every mechanism and every
    marble dynamic; the handles are pairwise different, so no two locals
    name the same body. *)
Theorem X11_handles_stay_valid (ops : list Stmt) :
  (type_at (space (marble_after ops)) (gate_body (marble_after ops)) = Some KINEMATIC
   /\ map (type_at (space (marble_after ops))) (mechs (marble_after ops))
      = replicate 4 (Some DYNAMIC)
   /\ map (type_at (space (marble_after ops))) (marbles (marble_after ops))
      = replicate 10 (Some DYNAMIC)
   /\ gate_body (marble_after ops) :: mechs (marble_after ops)
        ++ marbles (marble_after ops)
      = map body_ref (seq 0 15))
  /\ (type_at (space (single_after ops)) (gate_body (single_after ops)) = Some KINEMATIC
      /\ type_at (space (single_after ops)) (mechs (single_after ops)) = Some DYNAMIC
      /\ map (type_at (space (single_after ops))) (marbles (single_after ops))
         = replicate 5 (Some DYNAMIC)
      /\ gate_body (single_after ops) :: mechs (single_after ops)
           :: marbles (single_after ops)
         = map body_ref (seq 0 7)).
Proof.
  split.
  - destruct (stmts_preserve MarbleCounter.gate_closed_pos MarbleCounter.gate_open_pos
                ops MarbleCounter.init) as (_ & _ & _ & Hm & Hb).
    pose proof (stmts_gate_body MarbleCounter.gate_closed_pos
                  MarbleCounter.gate_open_pos ops MarbleCounter.init) as Hg.
    pose proof (fixed_stmts MarbleCounter.gate_closed_pos MarbleCounter.gate_open_pos
                  ops MarbleCounter.init) as Hf.
    fold (marble_after ops) in Hm, Hb, Hg, Hf. rewrite Hm, Hb, Hg.
    split; [rewrite (type_at_fixed _ _ _ Hf); reflexivity|].
    split; [|split; [|reflexivity]].
    + erewrite map_ext; [|intros r; apply (type_at_fixed _ _ _ Hf)]. reflexivity.
    + erewrite map_ext; [|intros r; apply (type_at_fixed _ _ _ Hf)]. reflexivity.
  - destruct (stmts_preserve SingleCounter.gate_closed_pos SingleCounter.gate_open_pos
                ops SingleCounter.init) as (_ & _ & _ & Hm & Hb).
    pose proof (stmts_gate_body SingleCounter.gate_closed_pos
                  SingleCounter.gate_open_pos ops SingleCounter.init) as Hg.
    pose proof (fixed_stmts SingleCounter.gate_closed_pos SingleCounter.gate_open_pos
                  ops SingleCounter.init) as Hf.
    fold (single_after ops) in Hm, Hb, Hg, Hf. rewrite Hm, Hb, Hg.
    split; [rewrite (type_at_fixed _ _ _ Hf); reflexivity|].
    split; [rewrite (type_at_fixed _ _ _ Hf); reflexivity|].
    split; [|reflexivity].
    erewrite map_ext; [|intros r; apply (type_at_fixed _ _ _ Hf)]. reflexivity.
Qed.

(** ** What each frame displays *)

Lemma displays_nth inputs : forall (s : Main (list BodyRef)) (k : nat),
  running s = true -> (k < frames_played inputs)%nat ->
  MarbleCounter.displays inputs s !! k
  = Some (MarbleCounter.readout (MarbleCounter.run (take (S k) inputs) s)).
Proof.
  induction inputs as [|inp rest IH]; intros s k Hr Hk; [simpl in Hk; lia|].
  simpl MarbleCounter.displays. rewrite Hr.
  unfold MarbleCounter.frame.
  destruct k as [|k].
  - simpl. unfold MarbleCounter.run. simpl. rewrite Hr. reflexivity.
  - simpl in Hk. destruct (existsb is_quit (events inp)) eqn:Hq; [lia|].
    simpl lookup. rewrite IH.
    + unfold MarbleCounter.run. simpl. rewrite Hr. reflexivity.
    + unfold MarbleCounter.advance. rewrite running_advance, Hr, Hq. reflexivity.
    + lia.
Qed.

(** X12. In a run of the multi-bit program entered with [running] true,
    the display of frame [k], for every frame that is played, is the readout
    of the locals as they are at the end of that frame: after the events,
    the timer step and the physics step of frames 0 to [k], and before
    anything of frame [k+1]. *)
Theorem X12_display_of_each_frame (inputs : list FrameInput)
    (s : Main (list BodyRef)) (k : nat) :
  running s = true -> (k < frames_played inputs)%nat ->
  MarbleCounter.displays inputs s !! k
  = Some (MarbleCounter.readout (MarbleCounter.run (take (S k) inputs) s)).
Proof. apply displays_nth. Qed.

(** The second of three frames, the one with the launch: its display
    counts the launch. *)
Lemma X12_display_of_each_frame_witness :
  MarbleCounter.displays three_frames MarbleCounter.init !! 1%nat
  = Some (MarbleCounter.readout
            (MarbleCounter.run (take 2 three_frames) MarbleCounter.init)).
Proof.
  apply (X12_display_of_each_frame three_frames MarbleCounter.init 1);
    [reflexivity | vm_compute; lia].
Defined.

(** ** C4: the joints of a mechanism, and its angle *)

Lemma body_angle_step_dynamic pose sp n :
  type_at sp (body_ref n) = Some DYNAMIC ->
  body_angle (step pose sp) (body_ref n) = snd (pose n).
Proof.
  unfold type_at, body_angle. rewrite get_body_step. simpl.
  destruct (bodies sp !! n) as [b|]; simpl; [|discriminate].
  intros [= E]. unfold step_body. rewrite E. reflexivity.
Qed.

(** C4, as stated, fails in its last part: nothing clamps the angle.  The
    limit joint is a constraint handed to the solver, and the program takes
    the angle the step leaves.  A frame whose step leaves the mechanisms at
    1 radian, beyond +35 degrees, ends with every mechanism at 1 radian,
    outside the bounds of its limit joint, the joints being all in place. *)
Lemma C4_clamp_counterexample :
  mech_angles (MarbleCounter.advance overshoot_frame MarbleCounter.init)
  = [1; 1; 1; 1]%float
  /\ body_angle (space (SingleCounter.advance overshoot_frame SingleCounter.init))
       (mechs (SingleCounter.advance overshoot_frame SingleCounter.init))
     = 1%float
  /\ (35 <? Py.degrees 1)%float = true
  /\ within limit_min limit_max 1 = false
  /\ limits_hold (space (MarbleCounter.advance overshoot_frame MarbleCounter.init))
     = false
  /\ constraints (space (MarbleCounter.advance overshoot_frame MarbleCounter.init))
     = constraints (space MarbleCounter.init)
  /\ limits_hold (space MarbleCounter.init) = true.
Proof.
  split; [vm_compute; reflexivity|].
  split; [vm_compute; reflexivity|].
  split; [vm_compute; reflexivity|].
  split; [vm_compute; reflexivity|].
  split; [vm_compute; reflexivity|].
  split; vm_compute; reflexivity.
Qed.

(** C4, amended.  A mechanism made by [create_counter_mechanism] at a
    position that converts to doubles, in a space whose constraints join
    bodies of that space, has exactly two constraints: one pivot joint to
    the static body at the given position and one rotary limit joint to the
    static body, with bounds that are -35 and +35 degrees.  In both programs
    this is so for every mechanism at every point of the loop.  The angle
    itself is not clamped by the program: the programs set it to the lower
    bound before the loop, where the limit joints are satisfied, and after
    each physics step, from any point of the loop, the angle of every
    mechanism is the one the step returned for its body, whatever it is. *)
Theorem C4_mechanism_joints (sp : Space) (position : Z * Z) (ops : list Stmt)
    (pose : Solver) :
  constraints_closed sp = true ->
  point_fits position = true ->
  joints_of (constraints (snd (create_counter_mechanism position sp)))
    (fst (create_counter_mechanism position sp))
  = [PivotJoint static_body (fst (create_counter_mechanism position sp)) (vec position);
     RotaryLimitJoint static_body (fst (create_counter_mechanism position sp))
       limit_min limit_max]
  /\ (Py.degrees limit_min = (-35)%float /\ Py.degrees limit_max = 35%float)
  /\ (Forall (mechanism_joined (space (marble_after ops))) (mechs (marble_after ops))
      /\ mechanism_joined (space (single_after ops)) (mechs (single_after ops)))
  /\ (mech_angles MarbleCounter.init = replicate 4 limit_min
      /\ body_angle (space SingleCounter.init) (mechs SingleCounter.init) = limit_min
      /\ limits_hold (space MarbleCounter.init) = true
      /\ limits_hold (space SingleCounter.init) = true)
  /\ (mech_angles (physics pose (marble_after ops))
      = map (fun n => snd (pose n)) [1; 2; 3; 4]%nat
      /\ body_angle (space (physics pose (single_after ops)))
           (mechs (physics pose (single_after ops)))
         = snd (pose 1%nat)).
Proof.
  intros Hc _.
  split; [apply create_counter_mechanism_joints, Hc|].
  split; [split; [exact degrees_limit_min | exact degrees_limit_max]|].
  split; [split; [apply marble_mechanisms_joined | apply single_mechanism_joined]|].
  split; [repeat split; vm_compute; reflexivity|].
  split.
  - destruct (stmts_preserve MarbleCounter.gate_closed_pos MarbleCounter.gate_open_pos
                ops MarbleCounter.init) as (_ & _ & _ & Hm & _).
    pose proof (fixed_stmts MarbleCounter.gate_closed_pos MarbleCounter.gate_open_pos
                  ops MarbleCounter.init) as Hf.
    fold (marble_after ops) in Hm, Hf.
    unfold mech_angles, physics. cbn [space mechs with_space]. rewrite Hm.
    change (mechs MarbleCounter.init)
      with [body_ref 1; body_ref 2; body_ref 3; body_ref 4].
    cbn [map]. repeat f_equal.
    all: apply body_angle_step_dynamic; rewrite (type_at_fixed _ _ _ Hf); reflexivity.
  - destruct (stmts_preserve SingleCounter.gate_closed_pos SingleCounter.gate_open_pos
                ops SingleCounter.init) as (_ & _ & _ & Hm & _).
    pose proof (fixed_stmts SingleCounter.gate_closed_pos SingleCounter.gate_open_pos
                  ops SingleCounter.init) as Hf.
    fold (single_after ops) in Hm, Hf.
    unfold physics. cbn [space mechs with_space]. rewrite Hm.
    change (mechs SingleCounter.init) with (body_ref 1).
    apply body_angle_step_dynamic. rewrite (type_at_fixed _ _ _ Hf). reflexivity.
Qed.

(** The space [create_space] returns and the place of Bit 0; two frames of
    either program, then a step that leaves the mechanisms beyond the upper
    bound. *)
Lemma C4_mechanism_joints_witness :
  (constraints_closed create_space = true /\ point_fits (820, 220) = true)
  /\ (Forall (mechanism_joined (space (marble_after two_frames_1011)))
        (mechs (marble_after two_frames_1011))
      /\ mechanism_joined (space (single_after two_frames_1011))
           (mechs (single_after two_frames_1011)))
  /\ mech_angles (physics (pose_all 1%float) (marble_after two_frames_1011))
     = map (fun n => snd (pose_all 1%float n)) [1; 2; 3; 4]%nat.
Proof.
  split; [split; reflexivity|].
  split.
  - exact (proj1 (proj2 (proj2 (C4_mechanism_joints create_space (820, 220)
                                  two_frames_1011 (pose_all 1%float)
                                  eq_refl eq_refl)))).
  - exact (proj1 (proj2 (proj2 (proj2 (proj2
             (C4_mechanism_joints create_space (820, 220)
                two_frames_1011 (pose_all 1%float) eq_refl eq_refl)))))).
Defined.
